(** * Raster grid unification ([eis_toolkit.raster_processing.unifying])

    A shallow embedding of [_unify_raster_grids] and [unify_raster_grids].

    - Coordinates and pixel values are rationals ([Q]): the arithmetic of the
      source (Python floats) is idealised to exact arithmetic.
    - The [meta] dictionaries are mutable Python objects.  They live in a
      store ([heap]) and the result tuples hold references ([loc]) to them,
      so that item assignment through one reference is seen through every
      alias.
    - The calls into [rasterio.warp] are external.  They are the fields of the
      class [Warp]; each call is also appended to the [trace] of the world,
      so that the arguments the code passes can be stated.
    - Python exceptions are the left injection of the result. *)

From Stdlib Require Import QArith Qabs Qround ZArith List Lia Lqa String Bool.
From stdpp Require Import base list.
Import ListNotations.

Local Open Scope Q_scope.

(** ** Values that come from rasterio *)

(** A coordinate reference system, as an opaque identifier. *)
Definition CRS := string.

(** [affine.Affine]: the six coefficients of
    [x' = a*col + b*row + c], [y' = d*col + e*row + f]. *)
Module Affine.
Record t := Make { a : Q; b : Q; c : Q; d : Q; e : Q; f : Q }.
End Affine.

(** [rasterio.enums.Resampling]; the code passes it through. *)
Inductive Resampling :=
| nearest | bilinear | cubic | cubic_spline | lanczos | average | mode.

(** Element types of arrays. *)
Inductive DType := uint8 | int16 | int32 | float32 | float64.

(** [numpy.ndarray] with three axes (band, row, column), band-major. *)
Module ndarray.
Record t := Make { shape : nat * nat * nat; dtype : DType; data : list Q }.
End ndarray.

Definition size (shape : nat * nat * nat) : nat :=
  let '(bands, rows, cols) := shape in (bands * rows * cols)%nat.

(** The [meta] dictionary of a dataset.  Its keys are fixed, so it is a
    record; [setitem_*] below are the item assignments the code performs. *)
Module Meta.
Record t := Make {
  driver : string;
  dtype : DType;
  nodata : Q;
  width : nat;
  height : nat;
  count : nat;
  crs : CRS;
  transform : Affine.t }.

Definition setitem_transform (v : Affine.t) (m : t) : t :=
  Make (driver m) (dtype m) (nodata m) (width m) (height m) (count m) (crs m) v.
Definition setitem_width (v : nat) (m : t) : t :=
  Make (driver m) (dtype m) (nodata m) v (height m) (count m) (crs m) (transform m).
Definition setitem_height (v : nat) (m : t) : t :=
  Make (driver m) (dtype m) (nodata m) (width m) v (count m) (crs m) (transform m).
End Meta.

(** [rasterio.io.DatasetReader]: the attributes the code reads.  [bounds] is
    [(left, bottom, right, top)]; [pixels] is the content [read()] returns. *)
Module DatasetReader.
Record t := Make {
  driver : string;
  dtype : DType;
  nodata : Q;
  width : nat;
  height : nat;
  count : nat;
  crs : CRS;
  transform : Affine.t;
  bounds : Q * Q * Q * Q;
  pixels : list Q }.

(** [raster.meta]: a dictionary built from the attributes on every access. *)
Definition meta (r : t) : Meta.t :=
  Meta.Make (driver r) (dtype r) (nodata r) (width r) (height r) (count r)
            (crs r) (transform r).

(** [raster.read()]: all bands, in the dataset's own element type. *)
Definition read (r : t) : ndarray.t :=
  ndarray.Make (count r, height r, width r) (dtype r) (pixels r).
End DatasetReader.

(** What a Python caller may pass where a raster or a list is expected. *)
#[warnings="-register-all"]
Inductive PyObj :=
| PyDataset (r : DatasetReader.t)
| PyList (items : list PyObj)
| PyTuple (items : list PyObj)
| PyNone
| PyInt (z : Z)
| PyStr (s : string).

(** ** Exceptions *)

Inductive Exception :=
| InvalidParameterValueException
| ZeroDivisionError
| WarpError (msg : string).

(** ** The external capability [rasterio.warp] *)

Record CalculateDefaultTransformArgs := {
  cdt_src_crs : CRS;
  cdt_dst_crs : CRS;
  cdt_width : nat;
  cdt_height : nat;
  cdt_bounds : Q * Q * Q * Q;
  cdt_resolution : Q * Q }.

Record ReprojectArgs := {
  source : ndarray.t;
  src_crs : CRS;
  src_transform : Affine.t;
  src_nodata : Q;
  destination : ndarray.t;
  dst_crs : CRS;
  dst_transform : Affine.t;
  dst_nodata : Q;
  resampling : Resampling }.

(** [reproject] stands for [warp.reproject(...)[0]].  [uninitialized] is the
    content of the memory [numpy.empty] hands out. *)
Class Warp := {
  calculate_default_transform :
    CalculateDefaultTransformArgs -> Exception + (Affine.t * nat * nat);
  reproject : ReprojectArgs -> Exception + ndarray.t;
  uninitialized : nat -> Q }.

(** ** The world: the store of dictionaries and the trace of external calls *)

Definition loc := nat.

Inductive Event :=
| EvCalculateDefaultTransform (args : CalculateDefaultTransformArgs)
| EvReproject (args : ReprojectArgs).

Record World := { heap : list Meta.t; trace : list Event }.

(** A computation reads and writes the world and returns or raises. *)
Definition M (A : Type) : Type := World -> (Exception + A) * World.

Definition ret {A} (x : A) : M A := fun w => (inr x, w).

Definition raise {A} (ex : Exception) : M A := fun w => (inl ex, w).

Definition bind {A B} (m : M A) (k : A -> M B) : M B :=
  fun w => match m w with
           | (inr x, w') => k x w'
           | (inl ex, w') => (inl ex, w')
           end.

Notation "x <- m ;; k" := (bind m (fun x => k))
  (at level 100, m at next level, right associativity).
Notation "m ;;; k" := (bind m (fun _ => k))
  (at level 100, right associativity).

Definition lift {A} (r : Exception + A) : M A := fun w => (r, w).

(** [d.copy()] and other dictionary creations: a fresh object in the store. *)
Definition new_dict (m : Meta.t) : M loc :=
  fun w => (inr (length (heap w)),
            {| heap := heap w ++ [m]; trace := trace w |}).

(** [d[key] = v]: the object is changed in place. *)
Definition setitem (l : loc) (upd : Meta.t -> Meta.t) : M unit :=
  fun w => (inr tt, {| heap := alter upd l (heap w); trace := trace w |}).

Definition log (ev : Event) : M unit :=
  fun w => (inr tt, {| heap := heap w; trace := trace w ++ [ev] |}).

(** ** Python and numpy primitives *)

(** [x % y] on floats: the result has the sign of [y]; [y = 0] raises. *)
Definition py_mod (x y : Q) : Exception + Q :=
  if Qeq_bool y 0 then inl ZeroDivisionError
  else inr (x - y * inject_Z (Qfloor (x / y))).

(** [x > y]. *)
Definition Qgtb (x y : Q) : bool := negb (Qle_bool x y).

(** [numpy.empty(shape)]: float64, content not initialised. *)
Definition np_empty {W : Warp} (shape : nat * nat * nat) : ndarray.t :=
  ndarray.Make shape float64 (map uninitialized (seq 0 (size shape))).

(** [arr.fill(v)]: every cell is overwritten. *)
Definition fill (arr : ndarray.t) (v : Q) : ndarray.t :=
  ndarray.Make (ndarray.shape arr) (ndarray.dtype arr)
               (map (fun _ => v) (ndarray.data arr)).

(** The two external calls, recorded in the trace before they run. *)
Definition call_calculate_default_transform {W : Warp}
    (args : CalculateDefaultTransformArgs) : M (Affine.t * nat * nat) :=
  log (EvCalculateDefaultTransform args) ;;;
  lift (calculate_default_transform args).

Definition call_reproject {W : Warp} (args : ReprojectArgs) : M ndarray.t :=
  log (EvReproject args) ;;;
  lift (reproject args).

(** ** [_unify_raster_grids] *)

(** The variables the loop reassigns.  [out_rasters] holds, for each result,
    the array and a reference to its dictionary. *)
Module Locals.
Record t := Make {
  dst_transform : Affine.t;
  dst_width : nat;
  dst_height : nat;
  out_rasters : list (ndarray.t * loc) }.
End Locals.

(** Line 22. *)
Definition dst_resolution (base_raster : DatasetReader.t) : Q * Q :=
  (Affine.a (DatasetReader.transform base_raster),
   Qabs (Affine.e (DatasetReader.transform base_raster))).

(** Lines 40-43 and 45-48: one coordinate is moved onto the grid. *)
Definition snap (coord distance_to_grid resolution : Q) : Q :=
  if Qgtb distance_to_grid (resolution / 2)
  then coord - distance_to_grid + resolution
  else coord - distance_to_grid.

(** Lines 32-62, the branch [if not same_extent]: the grid computed for
    [raster] alone, stored in the shared dictionary [out_meta]. *)
Definition snapped_grid {W : Warp} (base_raster raster : DatasetReader.t)
    (out_meta : loc) : M (Affine.t * nat * nat) :=
  let dst_crs := DatasetReader.crs base_raster in
  let dst_resolution := dst_resolution base_raster in
  grid <- call_calculate_default_transform
            {| cdt_src_crs := DatasetReader.crs raster;
               cdt_dst_crs := dst_crs;
               cdt_width := DatasetReader.width raster;
               cdt_height := DatasetReader.height raster;
               cdt_bounds := DatasetReader.bounds raster;
               cdt_resolution := dst_resolution |} ;;
  let '(dst_transform, dst_width, dst_height) := grid in
  x_distance_to_grid <- lift (py_mod (Affine.c dst_transform) (fst dst_resolution)) ;;
  y_distance_to_grid <- lift (py_mod (Affine.f dst_transform) (snd dst_resolution)) ;;
  let c := snap (Affine.c dst_transform) x_distance_to_grid (fst dst_resolution) in
  let f := snap (Affine.f dst_transform) y_distance_to_grid (snd dst_resolution) in
  let dst_transform :=
    Affine.Make (Affine.a dst_transform) (Affine.b dst_transform) c
                (Affine.d dst_transform) (Affine.e dst_transform) f in
  setitem out_meta (Meta.setitem_transform dst_transform) ;;;
  setitem out_meta (Meta.setitem_width dst_width) ;;;
  setitem out_meta (Meta.setitem_height dst_height) ;;;
  ret (dst_transform, dst_width, dst_height).

(** Lines 27-82: one pass of the loop. *)
Definition loop_body {W : Warp} (base_raster : DatasetReader.t)
    (resampling_method : Resampling) (same_extent : bool) (out_meta : loc)
    (vars : Locals.t) (raster : DatasetReader.t) : M Locals.t :=
  let dst_crs := DatasetReader.crs base_raster in
  grid <- (if negb same_extent
           then snapped_grid base_raster raster out_meta
           else ret (Locals.dst_transform vars, Locals.dst_width vars, Locals.dst_height vars)) ;;
  let '(dst_transform, dst_width, dst_height) := grid in
  let dst_array := np_empty (DatasetReader.count base_raster, dst_height, dst_width) in
  let dst_array := fill dst_array (Meta.nodata (DatasetReader.meta base_raster)) in
  let src_array := DatasetReader.read raster in
  out_image <- call_reproject
                 {| source := src_array;
                    src_crs := DatasetReader.crs raster;
                    src_transform := DatasetReader.transform raster;
                    src_nodata := Meta.nodata (DatasetReader.meta base_raster);
                    destination := dst_array;
                    dst_crs := dst_crs;
                    dst_transform := dst_transform;
                    dst_nodata := Meta.nodata (DatasetReader.meta base_raster);
                    resampling := resampling_method |} ;;
  ret (Locals.Make dst_transform dst_width dst_height
                   (Locals.out_rasters vars ++ [(out_image, out_meta)])).

(** [for raster in rasters_to_unify: ...] *)
Fixpoint for_each {A S} (body : S -> A -> M S) (items : list A) (s : S) : M S :=
  match items with
  | [] => ret s
  | x :: rest => s' <- body s x ;; for_each body rest s'
  end.

Definition _unify_raster_grids {W : Warp} (base_raster : DatasetReader.t)
    (rasters_to_unify : list DatasetReader.t) (resampling_method : Resampling)
    (same_extent : bool) : M (list (ndarray.t * loc)) :=
  base_meta <- new_dict (DatasetReader.meta base_raster) ;;
  let out_rasters := [(DatasetReader.read base_raster, base_meta)] in
  out_meta <- new_dict (DatasetReader.meta base_raster) ;;
  vars <- for_each (loop_body base_raster resampling_method same_extent out_meta)
            rasters_to_unify
            (Locals.Make (DatasetReader.transform base_raster)
                         (DatasetReader.width base_raster)
                         (DatasetReader.height base_raster)
                         out_rasters) ;;
  ret (Locals.out_rasters vars).

(** ** [unify_raster_grids] *)

(** [isinstance(x, rasterio.io.DatasetReader)] *)
Definition isinstance_DatasetReader (x : PyObj) : bool :=
  match x with PyDataset _ => true | _ => false end.

(** The elements of a list that passed the check, at their static type. *)
Fixpoint datasets (items : list PyObj) : list DatasetReader.t :=
  match items with
  | [] => []
  | PyDataset r :: rest => r :: datasets rest
  | _ :: rest => datasets rest
  end.

Definition unify_raster_grids {W : Warp} (base_raster raster_list : PyObj)
    (resampling_method : Resampling) (same_extent : bool)
    : M (list (ndarray.t * loc)) :=
  match base_raster with
  | PyDataset base =>
      match raster_list with
      | PyList items =>
          if negb (forallb isinstance_DatasetReader items)
          then raise InvalidParameterValueException
          else if Nat.eqb (length items) 0
          then raise InvalidParameterValueException
          else _unify_raster_grids base (datasets items) resampling_method same_extent
      | _ => raise InvalidParameterValueException
      end
  | _ => raise InvalidParameterValueException
  end.

(** What the caller sees: each result with the present content of its
    dictionary. *)
Definition view (w : World) (results : list (ndarray.t * loc))
    : list (ndarray.t * option Meta.t) :=
  map (fun r => (fst r, heap w !! snd r)) results.

(** ** A small instance of the capability, for running the code

    Both rasters must be in one coordinate system; the grid is the north-up
    grid over the bounds at the requested resolution; [reproject] copies the
    leading cells of the source over the destination.  The instance is only
    used to run the code on concrete inputs. *)

Definition example_calculate_default_transform
    (args : CalculateDefaultTransformArgs) : Exception + (Affine.t * nat * nat) :=
  if String.eqb (cdt_src_crs args) (cdt_dst_crs args) then
    let '(west, south, east, north) := cdt_bounds args in
    let '(xres, yres) := cdt_resolution args in
    inr (Affine.Make xres 0 west 0 (- yres) north,
         Z.to_nat (Qceiling ((east - west) / xres)),
         Z.to_nat (Qceiling ((north - south) / yres)))
  else inl (WarpError "no transformation between the coordinate systems").

Fixpoint overlay (src dst : list Q) : list Q :=
  match src, dst with
  | s :: src', _ :: dst' => s :: overlay src' dst'
  | _, _ => dst
  end.

Definition example_reproject (args : ReprojectArgs) : Exception + ndarray.t :=
  inr (ndarray.Make (ndarray.shape (destination args))
                    (ndarray.dtype (destination args))
                    (overlay (ndarray.data (source args))
                             (ndarray.data (destination args)))).

Definition example_covered (args : ReprojectArgs) (i : nat) : bool :=
  Nat.ltb i (length (ndarray.data (source args))).

Definition example_warp : Warp :=
  {| calculate_default_transform := example_calculate_default_transform;
     reproject := example_reproject;
     uninitialized := fun i => inject_Z (Z.of_nat i) + 7 |}.

Definition empty_world : World := {| heap := []; trace := [] |}.

(** A 4x3 base raster with pixel size 1, origin (1/2, 21/2). *)
Definition example_base : DatasetReader.t :=
  DatasetReader.Make "GTiff"%string int16 (-9999) 4 3 1 "EPSG:3067"%string
    (Affine.Make 1 0 (1 # 2) 0 (-1) (21 # 2))
    (1 # 2, 15 # 2, 9 # 2, 21 # 2)
    [1; 2; 3; 4; 5; 6; 7; 8; 9; 10; 11; 12].

(** A 2x2 raster, origin (13/4, 35/4), nodata 0. *)
Definition example_small : DatasetReader.t :=
  DatasetReader.Make "GTiff"%string uint8 0 2 2 1 "EPSG:3067"%string
    (Affine.Make 1 0 (13 # 4) 0 (-1) (35 # 4))
    (13 # 4, 27 # 4, 21 # 4, 35 # 4)
    [0; 21; 22; 23].

(** A 3x1 raster, origin (-7/4, 2), nodata 255. *)
Definition example_wide : DatasetReader.t :=
  DatasetReader.Make "GTiff"%string uint8 255 3 1 1 "EPSG:3067"%string
    (Affine.Make 1 0 (-7 # 4) 0 (-1) 2)
    (-7 # 4, 1, 5 # 4, 2)
    [31; 32; 33].

(** A base raster whose columns run from east to west (a < 0). *)
Definition example_flipped : DatasetReader.t :=
  DatasetReader.Make "GTiff"%string int16 (-9999) 4 3 1 "EPSG:3067"%string
    (Affine.Make (-1) 0 (9 # 2) 0 (-1) (21 # 2))
    (1 # 2, 15 # 2, 9 # 2, 21 # 2)
    [1; 2; 3; 4; 5; 6; 7; 8; 9; 10; 11; 12].

(** A base raster rotated by a quarter turn (a = e = 0). *)
Definition example_rotated : DatasetReader.t :=
  DatasetReader.Make "GTiff"%string int16 (-9999) 4 3 1 "EPSG:3067"%string
    (Affine.Make 0 1 (1 # 2) (-1) 0 (21 # 2))
    (1 # 2, 13 # 2, 7 # 2, 21 # 2)
    [1; 2; 3; 4; 5; 6; 7; 8; 9; 10; 11; 12].

(** The running example: the base raster and two others. *)
Definition example_call (same_extent : bool) :=
  @unify_raster_grids example_warp (PyDataset example_base)
    (PyList [PyDataset example_small; PyDataset example_wide])
    nearest same_extent empty_world.

Definition example_results (same_extent : bool) : list (ndarray.t * loc) :=
  match fst (example_call same_extent) with
  | inr results => results
  | inl _ => []
  end.

Definition example_world (same_extent : bool) : World :=
  snd (example_call same_extent).

(** A capability whose [reproject] fails on sources of three cells, so on
    [example_wide] and not on [example_small]. *)
Definition example_failing_warp : Warp :=
  {| calculate_default_transform := example_calculate_default_transform;
     reproject := fun args =>
       if Nat.eqb (length (ndarray.data (source args))) 3
       then inl (WarpError "reprojection failed"%string)
       else example_reproject args;
     uninitialized := fun _ => 0 |}.

(** ** What one pass of the loop computes

    The definitions below restate, without the world, the values one pass
    produces; [snapped_grid_run] and [loop_body_run] show that the code
    computes exactly these. *)

(** The arguments of [warp.calculate_default_transform] at lines 32-34. *)
Definition cdt_args (base_raster raster : DatasetReader.t)
    : CalculateDefaultTransformArgs :=
  {| cdt_src_crs := DatasetReader.crs raster;
     cdt_dst_crs := DatasetReader.crs base_raster;
     cdt_width := DatasetReader.width raster;
     cdt_height := DatasetReader.height raster;
     cdt_bounds := DatasetReader.bounds raster;
     cdt_resolution := dst_resolution base_raster |}.

(** Lines 37-58 on a raw transform. *)
Definition snap_transform (resolution : Q * Q) (raw : Affine.t)
    : Exception + Affine.t :=
  match py_mod (Affine.c raw) (fst resolution) with
  | inl ex => inl ex
  | inr x_distance_to_grid =>
      match py_mod (Affine.f raw) (snd resolution) with
      | inl ex => inl ex
      | inr y_distance_to_grid =>
          inr (Affine.Make
                 (Affine.a raw) (Affine.b raw)
                 (snap (Affine.c raw) x_distance_to_grid (fst resolution))
                 (Affine.d raw) (Affine.e raw)
                 (snap (Affine.f raw) y_distance_to_grid (snd resolution)))
      end
  end.

(** The grid of [raster] in unclipped mode. *)
Definition own_grid {W : Warp} (base_raster raster : DatasetReader.t)
    : Exception + (Affine.t * nat * nat) :=
  match calculate_default_transform (cdt_args base_raster raster) with
  | inl ex => inl ex
  | inr (raw, raw_width, raw_height) =>
      match snap_transform (dst_resolution base_raster) raw with
      | inl ex => inl ex
      | inr snapped => inr (snapped, raw_width, raw_height)
      end
  end.

Definition base_grid (base_raster : DatasetReader.t) : Affine.t * nat * nat :=
  (DatasetReader.transform base_raster,
   DatasetReader.width base_raster,
   DatasetReader.height base_raster).

(** The grid onto which [raster] is resampled. *)
Definition target_grid {W : Warp} (base_raster : DatasetReader.t)
    (same_extent : bool) (raster : DatasetReader.t)
    : Exception + (Affine.t * nat * nat) :=
  if same_extent then inr (base_grid base_raster)
  else own_grid base_raster raster.

(** Lines 60-62 on a dictionary. *)
Definition set_grid (grid : Affine.t * nat * nat) (m : Meta.t) : Meta.t :=
  let '(t, w, h) := grid in
  Meta.setitem_height h (Meta.setitem_width w (Meta.setitem_transform t m)).

(** The descriptor the specification asks for: the target grid with the band
    count and the nodata value (and the other keys) of the base raster. *)
Definition descriptor (base_raster : DatasetReader.t)
    (grid : Affine.t * nat * nat) : Meta.t :=
  set_grid grid (DatasetReader.meta base_raster).

(** Lines 65-66. *)
Definition dst_array {W : Warp} (base_raster : DatasetReader.t)
    (grid : Affine.t * nat * nat) : ndarray.t :=
  fill (np_empty (DatasetReader.count base_raster, snd grid, snd (fst grid)))
       (Meta.nodata (DatasetReader.meta base_raster)).

(** The arguments of [warp.reproject] at lines 70-80. *)
Definition reproject_args {W : Warp} (base_raster : DatasetReader.t)
    (resampling_method : Resampling) (raster : DatasetReader.t)
    (grid : Affine.t * nat * nat) : ReprojectArgs :=
  {| source := DatasetReader.read raster;
     src_crs := DatasetReader.crs raster;
     src_transform := DatasetReader.transform raster;
     src_nodata := Meta.nodata (DatasetReader.meta base_raster);
     destination := dst_array base_raster grid;
     dst_crs := DatasetReader.crs base_raster;
     dst_transform := fst (fst grid);
     dst_nodata := Meta.nodata (DatasetReader.meta base_raster);
     resampling := resampling_method |}.

(** The external calls of one pass. *)
Definition pass_events {W : Warp} (base_raster : DatasetReader.t)
    (resampling_method : Resampling) (same_extent : bool)
    (raster : DatasetReader.t) (grid : Affine.t * nat * nat) : list Event :=
  (if same_extent then []
   else [EvCalculateDefaultTransform (cdt_args base_raster raster)])
  ++ [EvReproject (reproject_args base_raster resampling_method raster grid)].

(** One pass that completes: its grid and the array it appends. *)
Definition pass {W : Warp} (base_raster : DatasetReader.t)
    (resampling_method : Resampling) (same_extent : bool)
    (raster : DatasetReader.t) (step : (Affine.t * nat * nat) * ndarray.t) : Prop :=
  target_grid base_raster same_extent raster = inr (fst step) /\
  reproject (reproject_args base_raster resampling_method raster (fst step))
    = inr (snd step).

(** The store after the passes: in unclipped mode each pass overwrites the
    grid keys of the one dictionary [out_meta]. *)
Definition store_grids (same_extent : bool) (out_meta : loc)
    (grids : list (Affine.t * nat * nat)) (h : list Meta.t) : list Meta.t :=
  if same_extent then h
  else fold_left (fun h g => alter (set_grid g) out_meta h) grids h.

(** ** Contracts of [warp.reproject] that some properties rest on *)

(** The returned array is the destination array: same shape and type. *)
Definition reproject_in_place (W : Warp) : Prop :=
  forall args out, reproject args = inr out ->
    ndarray.shape out = ndarray.shape (destination args) /\
    ndarray.dtype out = ndarray.dtype (destination args).

(** Cells without source coverage are left as they were. *)
Definition reproject_keeps_uncovered (W : Warp)
    (covered : ReprojectArgs -> nat -> bool) : Prop :=
  forall args out i, reproject args = inr out -> covered args i = false ->
    ndarray.data out !! i = ndarray.data (destination args) !! i.

(** The calls the loop can make for the rasters of a list. *)
Definition loop_event {W : Warp} (base_raster : DatasetReader.t)
    (resampling_method : Resampling) (rasters : list DatasetReader.t)
    (ev : Event) : Prop :=
  exists raster, In raster rasters /\
    (ev = EvCalculateDefaultTransform (cdt_args base_raster raster) \/
     exists grid,
       ev = EvReproject (reproject_args base_raster resampling_method raster grid)).

(** The loop invariant on the reassigned variables: in clipped mode they
    still hold the grid of the base raster. *)
Definition grid_kept (base_raster : DatasetReader.t) (same_extent : bool)
    (vars : Locals.t) : Prop :=
  same_extent = true ->
  (Locals.dst_transform vars, Locals.dst_width vars, Locals.dst_height vars)
  = base_grid base_raster.

(** ** The code computes the values above *)

Lemma alter_twice {A} (f g : A -> A) (i : nat) (l : list A) :
  alter f i (alter g i l) = alter (fun x => f (g x)) i l.
Proof.
  apply list_eq; intros j.
  rewrite !list_lookup_alter.
  destruct (decide (i = j)) as [-> | ]; [ | reflexivity].
  destruct (decide (j = j)); [ | congruence].
  destruct (l !! j); reflexivity.
Qed.

Section Runs.
Context {W : Warp}.
Variable base_raster : DatasetReader.t.
Variable resampling_method : Resampling.
Variable same_extent : bool.
Variable out_meta : loc.

Lemma snapped_grid_run (raster : DatasetReader.t) (w : World) :
  snapped_grid base_raster raster out_meta w =
  let tr := trace w ++ [EvCalculateDefaultTransform (cdt_args base_raster raster)] in
  match own_grid base_raster raster with
  | inl ex => (inl ex, {| heap := heap w; trace := tr |})
  | inr g => (inr g, {| heap := alter (set_grid g) out_meta (heap w); trace := tr |})
  end.
Proof.
  unfold snapped_grid, own_grid, snap_transform, call_calculate_default_transform,
    bind, log, lift, setitem, ret; simpl.
  fold (cdt_args base_raster raster).
  destruct (calculate_default_transform (cdt_args base_raster raster))
    as [ex | [[raw rw] rh]]; [reflexivity | ].
  destruct (py_mod (Affine.c raw) _) as [ex | dx]; [reflexivity | ].
  destruct (py_mod (Affine.f raw) _) as [ex | dy]; [reflexivity | ].
  simpl. rewrite !alter_twice. reflexivity.
Qed.

Lemma loop_body_run (vars : Locals.t) (raster : DatasetReader.t) (w : World) :
  (same_extent = true ->
   (Locals.dst_transform vars, Locals.dst_width vars, Locals.dst_height vars)
   = base_grid base_raster) ->
  loop_body base_raster resampling_method same_extent out_meta vars raster w =
  let called := {| heap := heap w;
                   trace := trace w ++ [EvCalculateDefaultTransform
                                          (cdt_args base_raster raster)] |} in
  match target_grid base_raster same_extent raster with
  | inl ex => (inl ex, called)
  | inr g =>
      let w' := {| heap := store_grids same_extent out_meta [g] (heap w);
                   trace := trace w ++ pass_events base_raster resampling_method
                                         same_extent raster g |} in
      match reproject (reproject_args base_raster resampling_method raster g) with
      | inl ex => (inl ex, w')
      | inr out_image =>
          (inr (Locals.Make (fst (fst g)) (snd (fst g)) (snd g)
                  (Locals.out_rasters vars ++ [(out_image, out_meta)])), w')
      end
  end.
Proof.
  intros Hbase. unfold loop_body, target_grid, store_grids, pass_events.
  destruct same_extent; simpl.
  - rewrite (Hbase eq_refl).
    unfold bind, ret, call_reproject, log, lift, base_grid; simpl.
    unfold reproject_args, dst_array; simpl.
    destruct (reproject _); reflexivity.
  - unfold bind at 1. rewrite snapped_grid_run; simpl.
    destruct (own_grid base_raster raster) as [ex | [[t wd] ht]]; [reflexivity | ].
    unfold bind, ret, call_reproject, log, lift; simpl.
    unfold reproject_args, dst_array; simpl.
    rewrite <- app_assoc; simpl.
    destruct (reproject _); reflexivity.
Qed.
End Runs.

Section Loop.
Context {W : Warp}.
Variable base_raster : DatasetReader.t.
Variable resampling_method : Resampling.
Variable same_extent : bool.
Variable out_meta : loc.

Let body := loop_body base_raster resampling_method same_extent out_meta.
Let step_pass := pass base_raster resampling_method same_extent.
Let events := fun (r : DatasetReader.t) (s : (Affine.t * nat * nat) * ndarray.t) =>
  pass_events base_raster resampling_method same_extent r (fst s).

Lemma store_grids_cons g gs h :
  store_grids same_extent out_meta (g :: gs) h
  = store_grids same_extent out_meta gs (store_grids same_extent out_meta [g] h).
Proof. unfold store_grids. destruct same_extent; reflexivity. Qed.

(** A run of the loop that returns is a sequence of completed passes, one
    per raster and in their order. *)
Lemma for_each_returns rasters : forall vars w vars' w',
  grid_kept base_raster same_extent vars ->
  for_each body rasters vars w = (inr vars', w') ->
  exists steps,
    Forall2 step_pass rasters steps /\
    Locals.out_rasters vars'
      = Locals.out_rasters vars ++ map (fun s => (snd s, out_meta)) steps /\
    heap w' = store_grids same_extent out_meta (map fst steps) (heap w) /\
    trace w' = trace w ++ concat (zip_with events rasters steps).
Proof.
  induction rasters as [ | r rest IH]; intros vars w vars' w' Hinv Hrun.
  - simpl in Hrun. unfold ret in Hrun. injection Hrun as <- <-.
    exists []. repeat split.
    + constructor.
    + simpl. rewrite app_nil_r. reflexivity.
    + unfold store_grids. destruct same_extent; reflexivity.
    + simpl. rewrite app_nil_r. reflexivity.
  - simpl in Hrun. unfold bind in Hrun. subst body.
    rewrite (loop_body_run _ _ _ _ _ _ _ Hinv) in Hrun. simpl in Hrun.
    destruct (target_grid base_raster same_extent r) as [ex | g] eqn:Hg;
      [discriminate | ].
    destruct (reproject (reproject_args base_raster resampling_method r g))
      as [ex | img] eqn:Himg; [discriminate | ].
    apply IH in Hrun.
    + destruct Hrun as (steps & Hsteps & Hout & Hheap & Htrace).
      exists ((g, img) :: steps). simpl in *. repeat split.
      * constructor; [split; assumption | assumption].
      * rewrite Hout, <- app_assoc. reflexivity.
      * rewrite Hheap. symmetry. apply store_grids_cons.
      * rewrite Htrace, <- app_assoc. reflexivity.
    + intros Hse. simpl. unfold target_grid in Hg. rewrite Hse in Hg.
      injection Hg as <-. reflexivity.
Qed.

(** Conversely, when every pass completes the loop returns. *)
Lemma for_each_completes rasters : forall steps vars w,
  grid_kept base_raster same_extent vars ->
  Forall2 step_pass rasters steps ->
  exists vars',
    for_each body rasters vars w
    = (inr vars',
       {| heap := store_grids same_extent out_meta (map fst steps) (heap w);
          trace := trace w ++ concat (zip_with events rasters steps) |}) /\
    Locals.out_rasters vars'
      = Locals.out_rasters vars ++ map (fun s => (snd s, out_meta)) steps.
Proof.
  induction rasters as [ | r rest IH]; intros steps vars w Hinv Hsteps.
  - inversion Hsteps; subst. exists vars. simpl. unfold ret. split.
    + rewrite app_nil_r. destruct w; unfold store_grids; simpl.
      destruct same_extent; reflexivity.
    + rewrite app_nil_r. reflexivity.
  - inversion Hsteps as [ | ? [g img] ? steps' [Hg Himg] Hrest]; subst.
    simpl in Hg, Himg. simpl. unfold bind. subst body.
    rewrite (loop_body_run _ _ _ _ _ _ _ Hinv). simpl.
    rewrite Hg, Himg.
    edestruct (IH steps') as (vars' & Hrun & Hout);
      [ | exact Hrest | ].
    2:{ exists vars'. split.
        - rewrite Hrun. simpl. rewrite <- store_grids_cons, <- app_assoc.
          reflexivity.
        - rewrite Hout. simpl. rewrite <- app_assoc. reflexivity. }
    intros Hse. simpl. unfold target_grid in Hg. rewrite Hse in Hg.
    injection Hg as <-. reflexivity.
Qed.
End Loop.

(** ** The store after the loop *)

Lemma set_grid_overwrites (g1 g2 : Affine.t * nat * nat) (m : Meta.t) :
  set_grid g2 (set_grid g1 m) = set_grid g2 m.
Proof. destruct g1 as [[t1 w1] h1], g2 as [[t2 w2] h2]. reflexivity. Qed.

Lemma store_grids_length se out_meta gs : forall h,
  length (store_grids se out_meta gs h) = length h.
Proof.
  unfold store_grids. destruct se; [reflexivity | ].
  induction gs as [ | g gs IH]; intros h; simpl; [reflexivity | ].
  rewrite IH. apply length_alter.
Qed.

(** Only the dictionary [out_meta] is ever assigned to. *)
Lemma store_grids_other se out_meta gs l : forall h,
  l <> out_meta -> store_grids se out_meta gs h !! l = h !! l.
Proof.
  unfold store_grids. destruct se; [reflexivity | ].
  induction gs as [ | g gs IH]; intros h Hne; simpl; [reflexivity | ].
  rewrite IH by assumption. apply list_lookup_alter_ne. congruence.
Qed.

Lemma store_grids_clipped out_meta gs h : store_grids true out_meta gs h = h.
Proof. reflexivity. Qed.

(** In unclipped mode [out_meta] ends with the grid of the last pass. *)
Lemma store_grids_last out_meta gs : forall h,
  store_grids false out_meta gs h !! out_meta
  = match last gs with
    | Some g => set_grid g <$> h !! out_meta
    | None => h !! out_meta
    end.
Proof.
  unfold store_grids.
  induction gs as [ | g gs IH]; intros h; simpl; [reflexivity | ].
  rewrite IH, list_lookup_alter_eq, last_cons.
  destruct (last gs) as [g' | ]; [ | reflexivity].
  rewrite <- option_fmap_compose. apply option_fmap_ext.
  intros m. apply set_grid_overwrites.
Qed.

(** ** [_unify_raster_grids] as a whole *)

Section Unify.
Context {W : Warp}.
Variable base_raster : DatasetReader.t.
Variable resampling_method : Resampling.
Variable same_extent : bool.

(** A call that returns: the base raster first, then one result per pass,
    all of them holding the same dictionary. *)
Lemma _unify_raster_grids_returns rasters w results w' :
  _unify_raster_grids base_raster rasters resampling_method same_extent w
  = (inr results, w') ->
  let base_meta := length (heap w) in
  let out_meta := S (length (heap w)) in
  exists steps,
    Forall2 (pass base_raster resampling_method same_extent) rasters steps /\
    results = (DatasetReader.read base_raster, base_meta)
              :: map (fun s => (snd s, out_meta)) steps /\
    heap w' = store_grids same_extent out_meta (map fst steps)
                (heap w ++ [DatasetReader.meta base_raster;
                            DatasetReader.meta base_raster]) /\
    trace w' = trace w ++
      concat (zip_with
                (fun r s => pass_events base_raster resampling_method
                              same_extent r (fst s)) rasters steps).
Proof.
  unfold _unify_raster_grids, bind, new_dict; simpl.
  rewrite length_app; simpl. rewrite Nat.add_1_r.
  destruct (for_each _ rasters _ _) as [[ex | vars] w1] eqn:Hloop;
    [discriminate | ].
  unfold ret. intros [= <- <-].
  apply for_each_returns in Hloop; [ | intros _; reflexivity].
  destruct Hloop as (steps & Hsteps & Hout & Hheap & Htrace).
  exists steps. simpl in *. rewrite <- app_assoc in Hheap. auto.
Qed.

(** When every pass completes, the call returns. *)
Lemma _unify_raster_grids_completes rasters steps w :
  Forall2 (pass base_raster resampling_method same_extent) rasters steps ->
  exists results w',
    _unify_raster_grids base_raster rasters resampling_method same_extent w
    = (inr results, w').
Proof.
  intros Hsteps.
  unfold _unify_raster_grids, bind, new_dict; simpl.
  edestruct (for_each_completes base_raster resampling_method same_extent)
    as (vars' & Hrun & _); [ | exact Hsteps | ].
  2:{ rewrite Hrun. unfold ret. eauto. }
  intros _. reflexivity.
Qed.
End Unify.

(** ** Arithmetic of the snapping step (lines 37-48) *)

Section Snapping.
Variables coord resolution remainder : Q.
Hypothesis resolution_positive : 0 < resolution.
Hypothesis remainder_def : py_mod coord resolution = inr remainder.

Let k : Z := Qfloor (coord / resolution).





End Snapping.

(** ** The external calls of any run, returning or raising *)

Section Traces.
Context {W : Warp}.
Variable base_raster : DatasetReader.t.
Variable resampling_method : Resampling.
Variable same_extent : bool.

Lemma loop_event_mono rasters r ev :
  loop_event base_raster resampling_method rasters ev ->
  loop_event base_raster resampling_method (r :: rasters) ev.
Proof. intros (x & Hin & Hev). exists x. split; [right | ]; assumption. Qed.

Lemma pass_events_loop_event raster rest g :
  Forall (loop_event base_raster resampling_method (raster :: rest))
         (pass_events base_raster resampling_method same_extent raster g).
Proof.
  unfold pass_events. apply Forall_app. split.
  - destruct same_extent; constructor; [ | constructor].
    exists raster. split; [left; reflexivity | left; reflexivity].
  - constructor; [ | constructor].
    exists raster. split; [left; reflexivity | right; eauto].
Qed.

Lemma for_each_trace out_meta rasters : forall vars w outcome w',
  grid_kept base_raster same_extent vars ->
  for_each (loop_body base_raster resampling_method same_extent out_meta)
    rasters vars w = (outcome, w') ->
  exists evs, trace w' = trace w ++ evs /\
    Forall (loop_event base_raster resampling_method rasters) evs.
Proof.
  induction rasters as [ | r rest IH]; intros vars w outcome w' Hinv Hrun.
  - simpl in Hrun. unfold ret in Hrun. injection Hrun as <- <-.
    exists []. rewrite app_nil_r. split; [reflexivity | constructor].
  - simpl in Hrun. unfold bind in Hrun.
    rewrite (loop_body_run _ _ _ _ _ _ _ Hinv) in Hrun. simpl in Hrun.
    destruct (target_grid base_raster same_extent r) as [ex | g] eqn:Hg.
    { injection Hrun as <- <-. simpl. eexists. split; [reflexivity | ].
      constructor; [ | constructor].
      exists r. split; [left; reflexivity | left; reflexivity]. }
    destruct (reproject (reproject_args base_raster resampling_method r g))
      as [ex | img] eqn:Himg.
    { injection Hrun as <- <-. simpl. eexists. split; [reflexivity | ].
      apply pass_events_loop_event. }
    apply IH in Hrun.
    + destruct Hrun as (evs & Htrace & Hevs). simpl in Htrace.
      rewrite <- app_assoc in Htrace. eexists. split; [exact Htrace | ].
      apply Forall_app. split; [apply pass_events_loop_event | ].
      eapply Forall_impl; [exact Hevs | ].
      intros ev. apply loop_event_mono.
    + intros Hse. simpl. unfold target_grid in Hg. rewrite Hse in Hg.
      injection Hg as <-. reflexivity.
Qed.

(** Every external call of [_unify_raster_grids] is a call of its loop. *)
Lemma _unify_raster_grids_trace rasters w outcome w' :
  _unify_raster_grids base_raster rasters resampling_method same_extent w
  = (outcome, w') ->
  exists evs, trace w' = trace w ++ evs /\
    Forall (loop_event base_raster resampling_method rasters) evs.
Proof.
  unfold _unify_raster_grids, bind, new_dict; simpl.
  destruct (for_each _ rasters _ _) as [[ex | vars] w1] eqn:Hloop.
  - intros [= <- <-].
    apply for_each_trace in Hloop; [exact Hloop | intros _; reflexivity].
  - unfold ret. intros [= <- <-].
    apply for_each_trace in Hloop; [exact Hloop | intros _; reflexivity].
Qed.
End Traces.

(** ** The checks of [unify_raster_grids] *)

Lemma datasets_map (rasters : list DatasetReader.t) :
  datasets (map PyDataset rasters) = rasters.
Proof. induction rasters as [ | r rest IH]; simpl; congruence. Qed.

Lemma all_datasets (items : list PyObj) :
  forallb isinstance_DatasetReader items = true ->
  items = map PyDataset (datasets items).
Proof.
  induction items as [ | x rest IH]; simpl; [reflexivity | ].
  destruct x; simpl; try discriminate.
  intros Hrest. rewrite <- IH by assumption. reflexivity.
Qed.

(** A call that returns has passed every check, and is a call of
    [_unify_raster_grids] on the rasters of the list. *)
Lemma unify_raster_grids_returns {W : Warp} base_raster raster_list
    resampling_method same_extent w results w' :
  unify_raster_grids base_raster raster_list resampling_method same_extent w
  = (inr results, w') ->
  exists base others,
    base_raster = PyDataset base /\
    raster_list = PyList (map PyDataset others) /\
    others <> [] /\
    _unify_raster_grids base others resampling_method same_extent w
    = (inr results, w').
Proof.
  unfold unify_raster_grids, raise.
  destruct base_raster as [base | | | | | ]; try discriminate.
  destruct raster_list as [ | items | | | | ]; try discriminate.
  destruct (forallb isinstance_DatasetReader items) eqn:Hall; simpl;
    [ | discriminate].
  destruct (Nat.eqb (length items) 0) eqn:Hlen; [discriminate | ].
  intros Hrun. exists base, (datasets items).
  rewrite <- all_datasets by assumption. repeat split; try assumption.
  intros Hnil. apply all_datasets in Hall. rewrite Hnil in Hall. subst items.
  discriminate.
Qed.

(** A valid call runs [_unify_raster_grids]. *)
Lemma unify_raster_grids_valid {W : Warp} base others resampling_method same_extent :
  others <> [] ->
  unify_raster_grids (PyDataset base) (PyList (map PyDataset others))
    resampling_method same_extent
  = _unify_raster_grids base others resampling_method same_extent.
Proof.
  intros Hne. unfold unify_raster_grids.
  replace (forallb isinstance_DatasetReader (map PyDataset others)) with true.
  - simpl. rewrite length_map, datasets_map.
    destruct others; [congruence | reflexivity].
  - symmetry. apply forallb_forall. intros x Hx. apply in_map_iff in Hx.
    destruct Hx as (r & <- & _). reflexivity.
Qed.

(** ** The result of a call that returns *)

Lemma Forall2_map_right {A B C} (P : A -> C -> Prop) (f : B -> C) l k :
  Forall2 (fun x y => P x (f y)) l k -> Forall2 P l (map f k).
Proof. induction 1; simpl; constructor; assumption. Qed.

Section Results.
Context {W : Warp}.
Variable base : DatasetReader.t.
Variable resampling_method : Resampling.
Variable same_extent : bool.
Variables (w : World) (steps : list ((Affine.t * nat * nat) * ndarray.t)).

Let base_meta : loc := length (heap w).
Let out_meta : loc := S (length (heap w)).
Let h' := store_grids same_extent out_meta (map fst steps)
            (heap w ++ [DatasetReader.meta base; DatasetReader.meta base]).

(** The dictionary of the base result is never assigned to. *)
Lemma base_meta_kept : h' !! base_meta = Some (DatasetReader.meta base).
Proof.
  subst h'. rewrite store_grids_other by (subst base_meta out_meta; lia).
  apply list_lookup_middle. reflexivity.
Qed.

(** Dictionaries that existed before the call are not touched. *)
Lemma older_dicts_kept l : (l < length (heap w))%nat -> h' !! l = heap w !! l.
Proof.
  intros Hl. subst h'. rewrite store_grids_other by (subst out_meta; lia).
  apply lookup_app_l. assumption.
Qed.

(** The one dictionary of the other results: the base raster's in clipped
    mode, the grid of the last pass in unclipped mode. *)
Lemma out_meta_final :
  h' !! out_meta =
  Some (if same_extent then DatasetReader.meta base
        else match last (map fst steps) with
             | Some g => descriptor base g
             | None => DatasetReader.meta base
             end).
Proof.
  assert ((heap w ++ [DatasetReader.meta base; DatasetReader.meta base])
            !! out_meta = Some (DatasetReader.meta base)) as Hlookup.
  { subst out_meta. rewrite lookup_app_r by lia.
    replace (S (length (heap w)) - length (heap w))%nat with 1%nat by lia.
    reflexivity. }
  subst h'. destruct same_extent.
  - rewrite store_grids_clipped. exact Hlookup.
  - rewrite store_grids_last, Hlookup.
    destruct (last (map fst steps)); reflexivity.
Qed.
End Results.

Lemma example_call_returns same_extent :
  example_call same_extent
  = (inr (example_results same_extent), example_world same_extent).
Proof. destruct same_extent; vm_compute; reflexivity. Qed.

(** * The properties *)

(** C9.  A call that returns has passed the checks on a base raster and a
    non-empty list of rasters; its result has one element more than the
    list; the first element is [base.read()] with a dictionary equal to the
    base raster's [meta], whatever the loop did; the arrays that follow are
    the arrays [reproject] returned for the rasters of the list, in the order
    of the list. *)
Theorem base_first_others_in_order {W : Warp}
    base_raster raster_list resampling_method same_extent w results w' :
  unify_raster_grids base_raster raster_list resampling_method same_extent w
  = (inr results, w') ->
  exists base others,
    base_raster = PyDataset base /\
    raster_list = PyList (map PyDataset others) /\
    length results = (1 + length others)%nat /\
    head (view w' results)
    = Some (DatasetReader.read base, Some (DatasetReader.meta base)) /\
    Forall2 (fun raster result =>
               exists grid,
                 target_grid base same_extent raster = inr grid /\
                 source (reproject_args base resampling_method raster grid)
                 = DatasetReader.read raster /\
                 reproject (reproject_args base resampling_method raster grid)
                 = inr (fst result))
            others (tail results).
Proof.
  intros Hrun.
  apply unify_raster_grids_returns in Hrun.
  destruct Hrun as (base & others & -> & -> & Hne & Hrun).
  apply _unify_raster_grids_returns in Hrun.
  destruct Hrun as (steps & Hsteps & -> & Hheap & Htrace).
  exists base, others. repeat split.
  - simpl. rewrite length_map. f_equal. symmetry.
    eapply Forall2_length. exact Hsteps.
  - simpl. rewrite Hheap, base_meta_kept. reflexivity.
  - simpl. apply Forall2_map_right.
    eapply Forall2_impl; [exact Hsteps | ].
    intros raster [g img] [Hg Himg]. simpl in *. exists g. auto.
Qed.

(** C9 on the running example, unclipped. *)
Lemma base_first_others_in_order_example :
  exists base others,
    PyDataset example_base = PyDataset base /\
    PyList [PyDataset example_small; PyDataset example_wide]
    = PyList (map PyDataset others) /\
    length (example_results false) = (1 + length others)%nat /\
    head (view (example_world false) (example_results false))
    = Some (DatasetReader.read base, Some (DatasetReader.meta base)) /\
    Forall2 (fun raster result =>
               exists grid,
                 target_grid (W:=example_warp) base false raster = inr grid /\
                 source (reproject_args (W:=example_warp) base nearest raster grid)
                 = DatasetReader.read raster /\
                 @reproject example_warp
                   (reproject_args (W:=example_warp) base nearest raster grid)
                 = inr (fst result))
            others (tail (example_results false)).
Proof.
  apply (@base_first_others_in_order example_warp (PyDataset example_base)
           (PyList [PyDataset example_small; PyDataset example_wide])
           nearest false empty_world).
  vm_compute. reflexivity.
Defined.

(** The view of the results of a call that returns. *)
Lemma view_results (w' : World) (base : DatasetReader.t) (base_meta out_meta : loc)
    (steps : list ((Affine.t * nat * nat) * ndarray.t)) :
  view w' ((DatasetReader.read base, base_meta)
           :: map (fun s => (snd s, out_meta)) steps)
  = (DatasetReader.read base, heap w' !! base_meta)
    :: map (fun s => (snd s, heap w' !! out_meta)) steps.
Proof. unfold view. simpl. rewrite map_map. reflexivity. Qed.

(** C4.  In clipped mode, if [reproject] returns its destination array, a
    call that returns gives every result the width, height and transform of
    the base raster and an array of shape (count, height, width) of the base
    raster. *)
Theorem clipped_results_on_base_grid {W : Warp}
    base_raster raster_list resampling_method w results w' :
  reproject_in_place W ->
  unify_raster_grids base_raster raster_list resampling_method true w
  = (inr results, w') ->
  exists base,
    base_raster = PyDataset base /\
    Forall (fun result =>
              (exists m, snd result = Some m /\
                 Meta.width m = DatasetReader.width base /\
                 Meta.height m = DatasetReader.height base /\
                 Meta.transform m = DatasetReader.transform base) /\
              ndarray.shape (fst result)
              = (DatasetReader.count base, DatasetReader.height base,
                 DatasetReader.width base))
           (view w' results).
Proof.
  intros Hplace Hrun.
  apply unify_raster_grids_returns in Hrun.
  destruct Hrun as (base & others & -> & -> & Hne & Hrun).
  apply _unify_raster_grids_returns in Hrun.
  destruct Hrun as (steps & Hsteps & -> & Hheap & Htrace).
  exists base. split; [reflexivity | ].
  rewrite view_results, Hheap, base_meta_kept, out_meta_final.
  constructor.
  - simpl. split; [ | reflexivity]. eexists. repeat split.
  - apply Forall_map.
    clear Hheap Htrace Hne.
    induction Hsteps as [ | r [g img] rs ss [Hg Himg] _ IH];
      [constructor | constructor; [ | exact IH]].
    simpl in *. split; [eexists; repeat split | ].
    injection Hg as <-.
    apply Hplace in Himg. destruct Himg as [-> _]. reflexivity.
Qed.

(** C4 on the running example; the example [reproject] returns its
    destination array. *)
Lemma clipped_results_on_base_grid_example :
  exists base,
    PyDataset example_base = PyDataset base /\
    Forall (fun result =>
              (exists m, snd result = Some m /\
                 Meta.width m = DatasetReader.width base /\
                 Meta.height m = DatasetReader.height base /\
                 Meta.transform m = DatasetReader.transform base) /\
              ndarray.shape (fst result)
              = (DatasetReader.count base, DatasetReader.height base,
                 DatasetReader.width base))
           (view (example_world true) (example_results true)).
Proof.
  apply (@clipped_results_on_base_grid example_warp (PyDataset example_base)
           (PyList [PyDataset example_small; PyDataset example_wide])
           nearest empty_world).
  - intros args out [= <-]. split; reflexivity.
  - vm_compute. reflexivity.
Defined.

(** C10.  If [reproject] returns its destination array, every array after the
    first has element type float64, whatever the element types of the base
    raster and of the source raster; the first array has the element type
    of the base raster. *)
Theorem other_results_are_float64 {W : Warp}
    base_raster raster_list resampling_method same_extent w results w' :
  reproject_in_place W ->
  unify_raster_grids base_raster raster_list resampling_method same_extent w
  = (inr results, w') ->
  exists base,
    base_raster = PyDataset base /\
    (ndarray.dtype <$> (fst <$> head results)) = Some (DatasetReader.dtype base) /\
    Forall (fun result => ndarray.dtype (fst result) = float64) (tail results).
Proof.
  intros Hplace Hrun.
  apply unify_raster_grids_returns in Hrun.
  destruct Hrun as (base & others & -> & -> & Hne & Hrun).
  apply _unify_raster_grids_returns in Hrun.
  destruct Hrun as (steps & Hsteps & -> & _ & _).
  exists base. repeat split. simpl.
  apply Forall_map.
  clear Hne.
  induction Hsteps as [ | r [g img] rs ss [Hg Himg] _ IH];
    [constructor | constructor; [ | exact IH]].
  simpl in *. apply Hplace in Himg. destruct Himg as [_ ->]. reflexivity.
Qed.

(** C10 on the running example, unclipped. *)
Lemma other_results_are_float64_example :
  exists base,
    PyDataset example_base = PyDataset base /\
    (ndarray.dtype <$> (fst <$> head (example_results false)))
    = Some (DatasetReader.dtype base) /\
    Forall (fun result => ndarray.dtype (fst result) = float64)
           (tail (example_results false)).
Proof.
  apply (@other_results_are_float64 example_warp (PyDataset example_base)
           (PyList [PyDataset example_small; PyDataset example_wide])
           nearest false empty_world _ (example_world false)).
  - intros args out [= <-]. split; reflexivity.
  - vm_compute. reflexivity.
Defined.

(** ** The destination array *)

Lemma fill_replicate (arr : ndarray.t) (v : Q) :
  ndarray.data (fill arr v) = replicate (length (ndarray.data arr)) v.
Proof.
  unfold fill; simpl.
  induction (ndarray.data arr) as [ | x l IH]; simpl; congruence.
Qed.

(** Whatever [numpy.empty] handed out, after [fill] every cell of the
    destination array is the nodata value of the base raster. *)
Lemma dst_array_filled {W : Warp} (base : DatasetReader.t)
    (grid : Affine.t * nat * nat) :
  ndarray.shape (dst_array base grid)
  = (DatasetReader.count base, snd grid, snd (fst grid)) /\
  ndarray.data (dst_array base grid)
  = replicate (size (ndarray.shape (dst_array base grid)))
              (DatasetReader.nodata base).
Proof.
  split; [reflexivity | ].
  unfold dst_array. rewrite fill_replicate. simpl.
  rewrite length_map, length_seq. reflexivity.
Qed.

(** Each completed pass has left its calls in the trace. *)
Lemma passes_in_trace {A B E} (P : A -> B -> Prop) (ev : A -> B -> E)
    (evs : A -> B -> list E) l k :
  (forall x y, In (ev x y) (evs x y)) ->
  Forall2 P l k ->
  forall before,
    Forall2 (fun x y => P x y /\
                        In (ev x y) (before ++ concat (zip_with evs l k))) l k.
Proof.
  intros Hev. induction 1 as [ | x y l k Hxy _ IH]; intros before.
  - constructor.
  - constructor.
    + split; [assumption | ]. simpl. apply in_or_app. right.
      apply in_or_app. left. apply Hev.
    + simpl. specialize (IH (before ++ evs x y)).
      rewrite <- app_assoc in IH. exact IH.
Qed.

(** C5.  For every raster of the list, the array passed to [reproject] as
    destination has the shape (count of the base raster, height, width of the
    target grid) and holds the nodata value of the base raster in every cell,
    whatever the allocated memory held; and if [reproject] leaves the cells
    without source coverage as they were, each such cell of the returned
    array is that nodata value. *)
Theorem destination_filled_with_nodata {W : Warp}
    (covered : ReprojectArgs -> nat -> bool)
    base_raster raster_list resampling_method same_extent w results w' :
  reproject_keeps_uncovered W covered ->
  unify_raster_grids base_raster raster_list resampling_method same_extent w
  = (inr results, w') ->
  exists base others,
    base_raster = PyDataset base /\
    raster_list = PyList (map PyDataset others) /\
    Forall2 (fun raster result =>
               exists grid,
                 target_grid base same_extent raster = inr grid /\
                 let args := reproject_args base resampling_method raster grid in
                 In (EvReproject args) (trace w') /\
                 ndarray.shape (destination args)
                 = (DatasetReader.count base, snd grid, snd (fst grid)) /\
                 ndarray.data (destination args)
                 = replicate (size (ndarray.shape (destination args)))
                             (DatasetReader.nodata base) /\
                 reproject args = inr (fst result) /\
                 forall i, (i < size (ndarray.shape (destination args)))%nat ->
                           covered args i = false ->
                           ndarray.data (fst result) !! i
                           = Some (DatasetReader.nodata base))
            others (tail results).
Proof.
  intros Hkeep Hrun.
  apply unify_raster_grids_returns in Hrun.
  destruct Hrun as (base & others & -> & -> & Hne & Hrun).
  apply _unify_raster_grids_returns in Hrun.
  destruct Hrun as (steps & Hsteps & -> & _ & Htrace).
  exists base, others. repeat split. simpl.
  apply Forall2_map_right. rewrite Htrace.
  assert (forall r (s : (Affine.t * nat * nat) * ndarray.t),
             In (EvReproject (reproject_args base resampling_method r (fst s)))
                (pass_events base resampling_method same_extent r (fst s)))
    as Hev.
  { intros r s. unfold pass_events. apply in_or_app. right. left. reflexivity. }
  pose proof (passes_in_trace _ _ _ _ _ Hev Hsteps (trace w)) as Hall.
  eapply Forall2_impl; [exact Hall | ].
  intros raster [g img] [[Hg Himg] Hin]; [ ].
  - simpl in *.
    exists g. split; [exact Hg | ].
    destruct (dst_array_filled base g) as [Hshape Hdata].
    repeat split; try assumption.
    intros i Hi Hcov.
    rewrite (Hkeep _ _ _ Himg Hcov).
    change (ndarray.data (dst_array base g) !! i
            = Some (DatasetReader.nodata base)).
    rewrite Hdata. apply lookup_replicate_2. exact Hi.
Qed.

(** The example [reproject] writes the leading cells only. *)
Lemma example_keeps_uncovered :
  reproject_keeps_uncovered example_warp example_covered.
Proof.
  intros args out i [= <-]. unfold example_covered. simpl.
  generalize (ndarray.data (source args)) (ndarray.data (destination args)).
  intros src. revert i.
  induction src as [ | s src IH]; intros i dst Hi; [destruct dst; reflexivity | ].
  apply Nat.ltb_ge in Hi. simpl in Hi.
  destruct dst as [ | x dst]; [reflexivity | ].
  destruct i as [ | i]; [lia | ]. simpl.
  apply IH. apply Nat.ltb_ge. lia.
Qed.

(** C5 on the running example, clipped: the rasters cover 4 and 3 of the 12
    cells of the base grid. *)
Lemma destination_filled_with_nodata_example :
  exists base others,
    PyDataset example_base = PyDataset base /\
    PyList [PyDataset example_small; PyDataset example_wide]
    = PyList (map PyDataset others) /\
    Forall2 (fun raster result =>
               exists grid,
                 target_grid (W:=example_warp) base true raster = inr grid /\
                 let args := reproject_args (W:=example_warp) base nearest raster grid in
                 In (EvReproject args) (trace (example_world true)) /\
                 ndarray.shape (destination args)
                 = (DatasetReader.count base, snd grid, snd (fst grid)) /\
                 ndarray.data (destination args)
                 = replicate (size (ndarray.shape (destination args)))
                             (DatasetReader.nodata base) /\
                 @reproject example_warp args = inr (fst result) /\
                 forall i, (i < size (ndarray.shape (destination args)))%nat ->
                           example_covered args i = false ->
                           ndarray.data (fst result) !! i
                           = Some (DatasetReader.nodata base))
            others (tail (example_results true)).
Proof.
  apply (@destination_filled_with_nodata example_warp example_covered
           (PyDataset example_base)
           (PyList [PyDataset example_small; PyDataset example_wide])
           nearest true empty_world).
  - exact example_keeps_uncovered.
  - vm_compute. reflexivity.
Defined.

(** C6.  When the base raster is not a dataset, or the list of rasters is not
    a list (so also when it is not a sequence at all), or one of its elements
    is not a dataset, or it is empty, [unify_raster_grids] raises
    [InvalidParameterValueException] and leaves the world as it was: no
    dictionary is created, no external call is made, no result is returned. *)
Theorem invalid_arguments_rejected {W : Warp}
    base_raster raster_list resampling_method same_extent w :
  isinstance_DatasetReader base_raster = false \/
  (forall items, raster_list <> PyList items) \/
  (exists items, raster_list = PyList items /\
     (forallb isinstance_DatasetReader items = false \/ items = [])) ->
  unify_raster_grids base_raster raster_list resampling_method same_extent w
  = (inl InvalidParameterValueException, w).
Proof.
  intros Hbad. unfold unify_raster_grids, raise.
  destruct base_raster as [base | | | | | ];
    try reflexivity.
  destruct Hbad as [Hbase | [Hlist | (items & -> & Hitems)]].
  - discriminate.
  - destruct raster_list as [ | items | | | | ]; try reflexivity.
    exfalso. apply (Hlist items). reflexivity.
  - destruct Hitems as [-> | ->]; [reflexivity | ].
    reflexivity.
Qed.

(** C6 on a list whose second element is a file name. *)
Lemma invalid_arguments_rejected_example :
  @unify_raster_grids example_warp (PyDataset example_base)
    (PyList [PyDataset example_small; PyStr "wide.tif"%string]) nearest true empty_world
  = (inl InvalidParameterValueException, empty_world).
Proof.
  apply (@invalid_arguments_rejected example_warp).
  right. right. exists [PyDataset example_small; PyStr "wide.tif"%string].
  split; [reflexivity | left; reflexivity].
Defined.

(** ** The grid of a raster in unclipped mode *)

Lemma own_grid_inr {W : Warp} base raster grid :
  own_grid base raster = inr grid ->
  exists raw raw_width raw_height x y,
    calculate_default_transform (cdt_args base raster)
    = inr (raw, raw_width, raw_height) /\
    py_mod (Affine.c raw) (fst (dst_resolution base)) = inr x /\
    py_mod (Affine.f raw) (snd (dst_resolution base)) = inr y /\
    grid = (Affine.Make (Affine.a raw) (Affine.b raw)
                        (snap (Affine.c raw) x (fst (dst_resolution base)))
                        (Affine.d raw) (Affine.e raw)
                        (snap (Affine.f raw) y (snd (dst_resolution base))),
            raw_width, raw_height).
Proof.
  unfold own_grid, snap_transform.
  destruct (calculate_default_transform _) as [ex | [[raw rw] rh]] eqn:Hraw;
    [discriminate | ].
  destruct (py_mod (Affine.c raw) _) as [ex | x] eqn:Hx; [discriminate | ].
  destruct (py_mod (Affine.f raw) _) as [ex | y] eqn:Hy; [discriminate | ].
  intros [= <-]. exists raw, rw, rh, x, y. repeat split; assumption.
Qed.

(** C7.  In unclipped mode, for every raster of a call that returns, the
    transform passed to [reproject] has the coefficients a, b, d, e of the
    transform that [calculate_default_transform] returned for that raster, and
    the snapped values in c and f; the destination array has the width and
    height that [calculate_default_transform] returned. *)
Theorem snapping_replaces_only_translation {W : Warp}
    base_raster raster_list resampling_method w results w' :
  unify_raster_grids base_raster raster_list resampling_method false w
  = (inr results, w') ->
  exists base others,
    base_raster = PyDataset base /\
    raster_list = PyList (map PyDataset others) /\
    Forall2 (fun raster result =>
               exists raw raw_width raw_height snapped x y,
                 calculate_default_transform (cdt_args base raster)
                 = inr (raw, raw_width, raw_height) /\
                 Affine.a snapped = Affine.a raw /\
                 Affine.b snapped = Affine.b raw /\
                 Affine.d snapped = Affine.d raw /\
                 Affine.e snapped = Affine.e raw /\
                 py_mod (Affine.c raw) (fst (dst_resolution base)) = inr x /\
                 py_mod (Affine.f raw) (snd (dst_resolution base)) = inr y /\
                 Affine.c snapped
                 = snap (Affine.c raw) x (fst (dst_resolution base)) /\
                 Affine.f snapped
                 = snap (Affine.f raw) y (snd (dst_resolution base)) /\
                 let args := reproject_args base resampling_method raster
                               (snapped, raw_width, raw_height) in
                 In (EvReproject args) (trace w') /\
                 dst_transform args = snapped /\
                 ndarray.shape (destination args)
                 = (DatasetReader.count base, raw_height, raw_width) /\
                 reproject args = inr (fst result))
            others (tail results).
Proof.
  intros Hrun.
  apply unify_raster_grids_returns in Hrun.
  destruct Hrun as (base & others & -> & -> & Hne & Hrun).
  apply _unify_raster_grids_returns in Hrun.
  destruct Hrun as (steps & Hsteps & -> & _ & Htrace).
  exists base, others. repeat split. simpl.
  apply Forall2_map_right. rewrite Htrace.
  assert (forall r (s : (Affine.t * nat * nat) * ndarray.t),
             In (EvReproject (reproject_args base resampling_method r (fst s)))
                (pass_events base resampling_method false r (fst s)))
    as Hev.
  { intros r s. unfold pass_events. apply in_or_app. right. left. reflexivity. }
  pose proof (passes_in_trace _ _ _ _ _ Hev Hsteps (trace w)) as Hall.
  eapply Forall2_impl; [exact Hall | ].
  intros raster [g img] [[Hg Himg] Hin]. simpl in *.
  unfold target_grid in Hg. apply own_grid_inr in Hg.
  destruct Hg as (raw & rw & rh & x & y & Hraw & Hx & Hy & ->).
  exists raw, rw, rh.
  exists (Affine.Make (Affine.a raw) (Affine.b raw)
            (snap (Affine.c raw) x (fst (dst_resolution base)))
            (Affine.d raw) (Affine.e raw)
            (snap (Affine.f raw) y (snd (dst_resolution base)))).
  exists x, y.
  repeat split; assumption.
Qed.

(** C7 on the running example. *)
Lemma snapping_replaces_only_translation_example :
  exists base others,
    PyDataset example_base = PyDataset base /\
    PyList [PyDataset example_small; PyDataset example_wide]
    = PyList (map PyDataset others) /\
    Forall2 (fun raster result =>
               exists raw raw_width raw_height snapped x y,
                 @calculate_default_transform example_warp (cdt_args base raster)
                 = inr (raw, raw_width, raw_height) /\
                 Affine.a snapped = Affine.a raw /\
                 Affine.b snapped = Affine.b raw /\
                 Affine.d snapped = Affine.d raw /\
                 Affine.e snapped = Affine.e raw /\
                 py_mod (Affine.c raw) (fst (dst_resolution base)) = inr x /\
                 py_mod (Affine.f raw) (snd (dst_resolution base)) = inr y /\
                 Affine.c snapped
                 = snap (Affine.c raw) x (fst (dst_resolution base)) /\
                 Affine.f snapped
                 = snap (Affine.f raw) y (snd (dst_resolution base)) /\
                 let args := reproject_args (W:=example_warp) base nearest raster
                               (snapped, raw_width, raw_height) in
                 In (EvReproject args) (trace (example_world false)) /\
                 dst_transform args = snapped /\
                 ndarray.shape (destination args)
                 = (DatasetReader.count base, raw_height, raw_width) /\
                 @reproject example_warp args = inr (fst result))
            others (tail (example_results false)).
Proof.
  apply (@snapping_replaces_only_translation example_warp
           (PyDataset example_base)
           (PyList [PyDataset example_small; PyDataset example_wide])
           nearest empty_world).
  vm_compute. reflexivity.
Defined.

(** ** The target resolution (line 22) *)

(** C8, as stated, fails: for the flipped base raster the first component of
    the resolution is a = -1, which is neither |a| nor positive; for the
    rotated base raster both components are 0. *)
Lemma resolution_not_abs_nor_positive :
  (fst (dst_resolution example_flipped) == -1 /\
   ~ fst (dst_resolution example_flipped)
     == Qabs (Affine.a (DatasetReader.transform example_flipped)) /\
   ~ 0 < fst (dst_resolution example_flipped)) /\
  (~ 0 < fst (dst_resolution example_rotated) /\
   ~ 0 < snd (dst_resolution example_rotated)).
Proof.
  repeat split; vm_compute; congruence.
Qed.

Lemma Qabs_of_positive (x : Q) : 0 < x -> Qabs x = x.
Proof.
  destruct x as [n d]. unfold Qlt, Qabs; simpl. intros Hn.
  f_equal. lia.
Qed.

Lemma Qabs_positive (x : Q) : ~ x == 0 -> 0 < Qabs x.
Proof.
  destruct x as [n d]. unfold Qlt, Qeq, Qabs; simpl. lia.
Qed.

(** C8, amended.  For a base raster with a > 0 and e <> 0, the resolution is
    (|a|, |e|), both components are positive, every call of
    [calculate_default_transform] receives it, and the snapping step of every
    raster uses it. *)
Theorem resolution_of_north_up_base {W : Warp} (base : DatasetReader.t) :
  0 < Affine.a (DatasetReader.transform base) ->
  ~ Affine.e (DatasetReader.transform base) == 0 ->
  let resolution := (Qabs (Affine.a (DatasetReader.transform base)),
                     Qabs (Affine.e (DatasetReader.transform base))) in
  dst_resolution base = resolution /\
  0 < fst (dst_resolution base) /\
  0 < snd (dst_resolution base) /\
  (forall rasters resampling_method same_extent w outcome w',
      _unify_raster_grids base rasters resampling_method same_extent w
      = (outcome, w') ->
      exists evs, trace w' = trace w ++ evs /\
        Forall (fun ev => match ev with
                          | EvCalculateDefaultTransform args =>
                              cdt_resolution args = resolution
                          | EvReproject _ => True
                          end) evs) /\
  (forall raster out_meta w grid w',
      snapped_grid base raster out_meta w = (inr grid, w') ->
      exists raw raw_width raw_height,
        calculate_default_transform (cdt_args base raster)
        = inr (raw, raw_width, raw_height) /\
        snap_transform resolution raw = inr (fst (fst grid))).
Proof.
  intros Ha He resolution.
  assert (dst_resolution base = resolution) as Hres.
  { unfold dst_resolution, resolution. rewrite (Qabs_of_positive _ Ha).
    reflexivity. }
  split; [exact Hres | ]. rewrite Hres. simpl.
  split; [rewrite (Qabs_of_positive _ Ha); assumption | ].
  split; [apply Qabs_positive; assumption | ].
  split.
  - intros rasters m se w outcome w' Hrun.
    apply _unify_raster_grids_trace in Hrun.
    destruct Hrun as (evs & Htrace & Hevs). exists evs. split; [exact Htrace | ].
    eapply Forall_impl; [exact Hevs | ].
    intros ev (r & _ & [-> | (g & ->)]); [ | exact I].
    exact Hres.
  - intros raster out_meta w grid w' Hrun.
    rewrite snapped_grid_run in Hrun. simpl in Hrun.
    destruct (own_grid base raster) as [ex | g] eqn:Hg; [discriminate | ].
    injection Hrun as <- _. unfold own_grid in Hg.
    destruct (calculate_default_transform _) as [ex | [[raw rw] rh]] eqn:Hraw;
      [discriminate | ].
    rewrite Hres in Hg.
    destruct (snap_transform resolution raw) as [ex | t] eqn:Ht;
      [discriminate | ].
    injection Hg as <-. exists raw, rw, rh. split; [reflexivity | exact Ht].
Qed.

(** C8, amended, on the base raster of the running example. *)
Lemma resolution_of_north_up_base_example :
  let resolution := (Qabs (Affine.a (DatasetReader.transform example_base)),
                     Qabs (Affine.e (DatasetReader.transform example_base))) in
  dst_resolution example_base = resolution /\
  0 < fst (dst_resolution example_base) /\
  0 < snd (dst_resolution example_base) /\
  (forall rasters resampling_method same_extent w outcome w',
      @_unify_raster_grids example_warp example_base rasters resampling_method
        same_extent w = (outcome, w') ->
      exists evs, trace w' = trace w ++ evs /\
        Forall (fun ev => match ev with
                          | EvCalculateDefaultTransform args =>
                              cdt_resolution args = resolution
                          | EvReproject _ => True
                          end) evs) /\
  (forall raster out_meta w grid w',
      @snapped_grid example_warp example_base raster out_meta w = (inr grid, w') ->
      exists raw raw_width raw_height,
        @calculate_default_transform example_warp (cdt_args example_base raster)
        = inr (raw, raw_width, raw_height) /\
        snap_transform resolution raw = inr (fst (fst grid))).
Proof.
  apply (@resolution_of_north_up_base example_warp example_base).
  - reflexivity.
  - vm_compute. discriminate.
Defined.

(** ** The dictionaries of the other results *)

(** All results after the first hold one dictionary.  In unclipped mode it
    ends as the descriptor of the grid of the last raster, for every one of
    them. *)
Lemma other_results_share_last_grid {W : Warp}
    base others resampling_method w results w' :
  _unify_raster_grids base others resampling_method false w
  = (inr results, w') ->
  exists steps,
    Forall2 (pass base resampling_method false) others steps /\
    Forall (fun result =>
              snd result
              = Some (match last (map fst steps) with
                      | Some g => descriptor base g
                      | None => DatasetReader.meta base
                      end))
           (tail (view w' results)).
Proof.
  intros Hrun. apply _unify_raster_grids_returns in Hrun.
  destruct Hrun as (steps & Hsteps & -> & Hheap & _).
  exists steps. split; [exact Hsteps | ].
  rewrite view_results, Hheap, out_meta_final. simpl.
  apply Forall_map. apply Forall_forall. intros s _. reflexivity.
Qed.

(** C1 at a failing input: the base raster with the rasters [example_small]
    and [example_wide], unclipped.  The two rasters have different grids, yet
    after the call the descriptor of the result for [example_small] is the
    one built from the grid of [example_wide]: appending the second result
    changed the descriptor of the first. *)
Theorem earlier_descriptor_overwritten :
  exists g_small g_wide d_small d_wide,
    own_grid (W:=example_warp) example_base example_small = inr g_small /\
    own_grid (W:=example_warp) example_base example_wide = inr g_wide /\
    map snd (view (example_world false) (example_results false))
    = [Some (DatasetReader.meta example_base); Some d_small; Some d_wide] /\
    d_wide = descriptor example_base g_wide /\
    d_small = descriptor example_base g_wide /\
    d_small <> descriptor example_base g_small /\
    map snd (example_results false) = [0; 1; 1]%nat.
Proof.
  do 4 eexists. vm_compute.
  repeat split; try reflexivity. discriminate.
Qed.

(** ** The arguments of the external calls *)

(** Every call of [reproject], in a run that returns or raises, passes the
    array, coordinate system and transform of a raster of the list, and the
    nodata value of the base raster both as source and as destination
    nodata. *)
Lemma reproject_calls {W : Warp} base rasters resampling_method same_extent
    w outcome w' :
  _unify_raster_grids base rasters resampling_method same_extent w
  = (outcome, w') ->
  exists evs, trace w' = trace w ++ evs /\
    Forall (fun ev =>
              match ev with
              | EvReproject args =>
                  exists raster, In raster rasters /\
                    source args = DatasetReader.read raster /\
                    src_crs args = DatasetReader.crs raster /\
                    src_transform args = DatasetReader.transform raster /\
                    src_nodata args = DatasetReader.nodata base /\
                    ndarray.dtype (destination args) = float64 /\
                    ndarray.data (destination args)
                    = replicate (size (ndarray.shape (destination args)))
                                (DatasetReader.nodata base) /\
                    dst_crs args = DatasetReader.crs base /\
                    dst_nodata args = DatasetReader.nodata base /\
                    resampling args = resampling_method
              | EvCalculateDefaultTransform _ => True
              end) evs.
Proof.
  intros Hrun. apply _unify_raster_grids_trace in Hrun.
  destruct Hrun as (evs & Htrace & Hevs). exists evs. split; [exact Htrace | ].
  eapply Forall_impl; [exact Hevs | ].
  intros ev (r & Hin & [-> | (g & ->)]); [exact I | ].
  exists r. destruct (dst_array_filled base g) as [_ Hdata].
  repeat split; assumption.
Qed.

(** C3 at a failing input: the nodata value of [example_small] is 0, that of
    the base raster is -9999.  The call of [reproject] for [example_small]
    passes the raster's own array, coordinate system and transform, but
    -9999 as source nodata. *)
Theorem source_nodata_is_the_base_nodata :
  exists args,
    In (EvReproject args) (trace (example_world false)) /\
    source args = DatasetReader.read example_small /\
    src_crs args = DatasetReader.crs example_small /\
    src_transform args = DatasetReader.transform example_small /\
    src_nodata args = DatasetReader.nodata example_base /\
    src_nodata args = -9999 /\
    DatasetReader.nodata example_small = 0 /\
    ~ src_nodata args == DatasetReader.nodata example_small.
Proof.
  eexists. split.
  - vm_compute. right. left. reflexivity.
  - vm_compute. repeat split; try reflexivity. discriminate.
Qed.


(** C2 at a failing input: the base raster has its origin at (1/2, 21/2) and
    resolution 1; [calculate_default_transform] puts the raw origin of
    [example_small] at (13/4, 35/4).  The snapped origin is (3, 9): within half
    a pixel of the raw origin, on the multiples of the resolution counted from
    zero, and half a pixel off the multiples counted from the origin of the
    base raster. *)
Theorem snapped_origin_off_the_base_grid :
  exists raw snapped x_off y_off,
    @calculate_default_transform example_warp (cdt_args example_base example_small)
    = inr (raw, 2%nat, 2%nat) /\
    own_grid (W:=example_warp) example_base example_small
    = inr (snapped, 2%nat, 2%nat) /\
    In (EvReproject
          (reproject_args (W:=example_warp) example_base nearest example_small
             (snapped, 2%nat, 2%nat)))
       (trace (example_world false)) /\
    Affine.c raw == 13 # 4 /\ Affine.f raw == 35 # 4 /\
    Affine.c snapped == 3 /\ Affine.f snapped == 9 /\
    Qabs (Affine.c snapped - Affine.c raw) <= 1 # 2 /\
    Qabs (Affine.f snapped - Affine.f raw) <= 1 # 2 /\
    py_mod (Affine.c snapped
            - Affine.c (DatasetReader.transform example_base))
           (fst (dst_resolution example_base)) = inr x_off /\
    py_mod (Affine.f snapped
            - Affine.f (DatasetReader.transform example_base))
           (snd (dst_resolution example_base)) = inr y_off /\
    x_off == 1 # 2 /\ y_off == 1 # 2 /\
    ~ x_off == 0 /\ ~ y_off == 0.
Proof.
  do 4 eexists.
  split; [vm_compute; reflexivity | ].
  split; [vm_compute; reflexivity | ].
  split; [vm_compute; right; left; reflexivity | ].
  repeat split; vm_compute; try reflexivity; discriminate.
Qed.

(** * Further properties of the two functions *)

(** ** Runs built from completed passes *)

(** The result and the world of a call whose passes all complete. *)
Lemma _unify_raster_grids_result {W : Warp} base resampling_method same_extent
    rasters steps w :
  Forall2 (pass base resampling_method same_extent) rasters steps ->
  _unify_raster_grids base rasters resampling_method same_extent w
  = (inr ((DatasetReader.read base, length (heap w))
          :: map (fun s => (snd s, S (length (heap w)))) steps),
     {| heap := store_grids same_extent (S (length (heap w))) (map fst steps)
                  (heap w ++ [DatasetReader.meta base; DatasetReader.meta base]);
        trace := trace w ++
          concat (zip_with
                    (fun r s => pass_events base resampling_method same_extent
                                  r (fst s)) rasters steps) |}).
Proof.
  intros Hsteps.
  unfold _unify_raster_grids, bind, new_dict; simpl.
  rewrite length_app; simpl. rewrite Nat.add_1_r.
  edestruct (for_each_completes base resampling_method same_extent
               (S (length (heap w))) rasters steps)
    as (vars' & Hrun & Hout); [ | exact Hsteps | ].
  2:{ rewrite Hrun. unfold ret. simpl. rewrite Hout, <- app_assoc. reflexivity. }
  intros _. reflexivity.
Qed.

Lemma Forall2_last {A B} (P : A -> B -> Prop) l k x :
  Forall2 P l k -> last l = Some x -> exists y, last k = Some y /\ P x y.
Proof.
  induction 1 as [ | a b l k Hab Hlk IH]; [discriminate | ].
  rewrite !last_cons. destruct Hlk as [ | a' b' l k Hab' Hlk].
  - simpl. intros [= <-]. eauto.
  - intros Hlast. destruct (last (a' :: l)) as [z | ] eqn:Hz.
    + injection Hlast as <-. destruct (IH eq_refl) as (y & -> & Hy). eauto.
    + rewrite last_cons in Hz. destruct (last l); discriminate.
Qed.

Lemma last_map {A B} (f : A -> B) (l : list A) :
  last (map f l) = f <$> last l.
Proof.
  induction l as [ | x l IH]; [reflexivity | ].
  simpl map. rewrite !last_cons, IH. destruct (last l); reflexivity.
Qed.

Lemma descriptor_of_base_grid (base : DatasetReader.t) :
  descriptor base (base_grid base) = DatasetReader.meta base.
Proof. reflexivity. Qed.

(** X1.  In a call that returns, all results after the first hold one and the
    same dictionary, which is not the dictionary of the first result; at the
    end it is the descriptor of the target grid of the last raster of the
    list, whichever raster a result belongs to. *)
Theorem other_results_hold_one_dictionary {W : Warp}
    base_raster raster_list resampling_method same_extent w results w' :
  unify_raster_grids base_raster raster_list resampling_method same_extent w
  = (inr results, w') ->
  exists base others last_raster last_grid base_meta out_meta,
    base_raster = PyDataset base /\
    raster_list = PyList (map PyDataset others) /\
    last others = Some last_raster /\
    target_grid base same_extent last_raster = inr last_grid /\
    snd <$> head results = Some base_meta /\
    base_meta <> out_meta /\
    Forall (fun result => snd result = out_meta) (tail results) /\
    heap w' !! out_meta = Some (descriptor base last_grid).
Proof.
  intros Hrun.
  apply unify_raster_grids_returns in Hrun.
  destruct Hrun as (base & others & -> & -> & Hne & Hrun).
  apply _unify_raster_grids_returns in Hrun.
  destruct Hrun as (steps & Hsteps & -> & Hheap & _).
  destruct (last others) as [r | ] eqn:Hlast.
  2:{ apply last_None in Hlast. contradiction. }
  destruct (Forall2_last _ _ _ _ Hsteps Hlast) as ([g img] & Hg & Hpass & _).
  simpl in Hpass.
  exists base, others, r, g, (length (heap w)), (S (length (heap w))).
  repeat split; try assumption.
  - lia.
  - simpl. apply Forall_map. apply Forall_forall. intros s _. reflexivity.
  - rewrite Hheap, out_meta_final, last_map, Hg. simpl.
    destruct same_extent; [ | reflexivity].
    unfold target_grid in Hpass. injection Hpass as <-. reflexivity.
Qed.

(** X1 on the running example, unclipped. *)
Lemma other_results_hold_one_dictionary_example :
  exists base others last_raster last_grid base_meta out_meta,
    PyDataset example_base = PyDataset base /\
    PyList [PyDataset example_small; PyDataset example_wide]
    = PyList (map PyDataset others) /\
    last others = Some last_raster /\
    target_grid (W:=example_warp) base false last_raster = inr last_grid /\
    snd <$> head (example_results false) = Some base_meta /\
    base_meta <> out_meta /\
    Forall (fun result => snd result = out_meta) (tail (example_results false)) /\
    heap (example_world false) !! out_meta = Some (descriptor base last_grid).
Proof.
  apply (@other_results_hold_one_dictionary example_warp (PyDataset example_base)
           (PyList [PyDataset example_small; PyDataset example_wide])
           nearest false empty_world).
  vm_compute. reflexivity.
Defined.

(** X2.  If [reproject] returns its destination array, the array of the last
    result of a call that returns has the shape (count, height, width) that
    the dictionary of that result announces. *)
Theorem last_result_matches_its_descriptor {W : Warp}
    base_raster raster_list resampling_method same_extent w results w' :
  reproject_in_place W ->
  unify_raster_grids base_raster raster_list resampling_method same_extent w
  = (inr results, w') ->
  exists arr d,
    last (view w' results) = Some (arr, Some d) /\
    ndarray.shape arr = (Meta.count d, Meta.height d, Meta.width d).
Proof.
  intros Hplace Hrun.
  apply unify_raster_grids_returns in Hrun.
  destruct Hrun as (base & others & -> & -> & Hne & Hrun).
  apply _unify_raster_grids_returns in Hrun.
  destruct Hrun as (steps & Hsteps & -> & Hheap & _).
  destruct (last others) as [r | ] eqn:Hlast.
  2:{ apply last_None in Hlast. contradiction. }
  destruct (Forall2_last _ _ _ _ Hsteps Hlast) as ([g img] & Hg & Hpass & Himg).
  simpl in Hpass, Himg.
  exists img, (descriptor base g). split.
  - rewrite view_results, last_cons, last_map, Hg. simpl.
    rewrite Hheap, out_meta_final, last_map, Hg. simpl.
    destruct same_extent; [ | reflexivity].
    unfold target_grid in Hpass. injection Hpass as <-. reflexivity.
  - apply Hplace in Himg. destruct Himg as [-> _].
    destruct g as [[t wd] ht]. reflexivity.
Qed.

(** X2 on the running example, unclipped. *)
Lemma last_result_matches_its_descriptor_example :
  exists arr d,
    last (view (example_world false) (example_results false))
    = Some (arr, Some d) /\
    ndarray.shape arr = (Meta.count d, Meta.height d, Meta.width d).
Proof.
  apply (@last_result_matches_its_descriptor example_warp (PyDataset example_base)
           (PyList [PyDataset example_small; PyDataset example_wide])
           nearest false empty_world).
  - intros args out [= <-]. split; reflexivity.
  - vm_compute. reflexivity.
Defined.

(** ** The store in any run *)

(** Whatever the outcome of the loop, it creates no dictionary and assigns to
    none but [out_meta]. *)
Lemma for_each_store {W : Warp} base resampling_method same_extent out_meta
    rasters : forall vars w outcome w',
  grid_kept base same_extent vars ->
  for_each (loop_body base resampling_method same_extent out_meta)
    rasters vars w = (outcome, w') ->
  length (heap w') = length (heap w) /\
  forall l, l <> out_meta -> heap w' !! l = heap w !! l.
Proof.
  induction rasters as [ | r rest IH]; intros vars w outcome w' Hinv Hrun.
  - simpl in Hrun. unfold ret in Hrun. injection Hrun as <- <-. auto.
  - simpl in Hrun. unfold bind in Hrun.
    rewrite (loop_body_run _ _ _ _ _ _ _ Hinv) in Hrun. simpl in Hrun.
    destruct (target_grid base same_extent r) as [ex | g] eqn:Hg.
    { injection Hrun as <- <-. auto. }
    destruct (reproject (reproject_args base resampling_method r g))
      as [ex | img] eqn:Himg.
    { injection Hrun as <- <-. simpl. split.
      - apply store_grids_length.
      - intros l Hl. apply store_grids_other. exact Hl. }
    apply IH in Hrun.
    + destruct Hrun as [Hlen Hother]. simpl in *. split.
      * rewrite Hlen. apply store_grids_length.
      * intros l Hl. rewrite Hother by exact Hl.
        apply store_grids_other. exact Hl.
    + intros Hse. simpl. unfold target_grid in Hg. rewrite Hse in Hg.
      injection Hg as <-. reflexivity.
Qed.

(** Either a check fails, or the call is a call of [_unify_raster_grids]. *)
Lemma unify_raster_grids_cases {W : Warp}
    base_raster raster_list resampling_method same_extent w :
  unify_raster_grids base_raster raster_list resampling_method same_extent w
  = (inl InvalidParameterValueException, w) \/
  exists base others,
    base_raster = PyDataset base /\
    raster_list = PyList (map PyDataset others) /\
    others <> [] /\
    unify_raster_grids base_raster raster_list resampling_method same_extent w
    = _unify_raster_grids base others resampling_method same_extent w.
Proof.
  unfold unify_raster_grids, raise.
  destruct base_raster as [base | | | | | ]; try (left; reflexivity).
  destruct raster_list as [ | items | | | | ]; try (left; reflexivity).
  destruct (forallb isinstance_DatasetReader items) eqn:Hall; simpl;
    [ | left; reflexivity].
  destruct (Nat.eqb (length items) 0) eqn:Hlen; [left; reflexivity | ].
  right. exists base, (datasets items).
  rewrite <- all_datasets by assumption. repeat split.
  intros Hnil. apply all_datasets in Hall. rewrite Hnil in Hall. subst items.
  discriminate.
Qed.

(** X3.  Whatever the arguments and whatever the outcome (a result or any
    exception), a call leaves every dictionary that existed before it as it
    was, creates either no dictionary or exactly two, and only appends to the
    trace of external calls. *)
Theorem older_dictionaries_untouched {W : Warp}
    base_raster raster_list resampling_method same_extent w outcome w' :
  unify_raster_grids base_raster raster_list resampling_method same_extent w
  = (outcome, w') ->
  (forall l, (l < length (heap w))%nat -> heap w' !! l = heap w !! l) /\
  (heap w' = heap w \/ length (heap w') = (length (heap w) + 2)%nat) /\
  exists evs, trace w' = trace w ++ evs.
Proof.
  intros Hrun.
  destruct (unify_raster_grids_cases base_raster raster_list resampling_method
              same_extent w) as [Hbad | (base & others & _ & _ & _ & Hgood)].
  - rewrite Hbad in Hrun. injection Hrun as <- <-.
    repeat split; [left; reflexivity | exists []; rewrite app_nil_r; reflexivity].
  - rewrite Hgood in Hrun.
    destruct (_unify_raster_grids_trace _ _ _ _ _ _ _ Hrun) as (evs & Hevs & _).
    assert (length (heap w') = (length (heap w) + 2)%nat /\
            forall l, (l < length (heap w))%nat -> heap w' !! l = heap w !! l)
      as [Hlen Hold].
    { revert Hrun. unfold _unify_raster_grids, bind, new_dict; simpl.
      rewrite length_app; simpl. rewrite Nat.add_1_r.
      destruct (for_each _ others _ _) as [res w1] eqn:Hloop.
      apply for_each_store in Hloop; [ | intros _; reflexivity].
      destruct Hloop as [Hlen Hother]. simpl in Hlen, Hother.
      rewrite !length_app in Hlen. simpl in Hlen.
      assert (forall l, (l < length (heap w))%nat -> heap w1 !! l = heap w !! l)
        as Hold.
      { intros l Hl. rewrite Hother by lia.
        rewrite <- app_assoc. apply lookup_app_l. exact Hl. }
      destruct res as [ex | vars]; unfold ret; intros [= <- <-];
        (split; [lia | exact Hold]). }
    repeat split; [exact Hold | right; exact Hlen | exists evs; exact Hevs].
Qed.

(** X3 on a world that already holds a dictionary. *)
Lemma older_dictionaries_untouched_example :
  let w := {| heap := [DatasetReader.meta example_wide]; trace := [] |} in
  let run := @unify_raster_grids example_warp (PyDataset example_base)
               (PyList [PyDataset example_small; PyDataset example_wide])
               nearest false w in
  (forall l, (l < length (heap w))%nat -> heap (snd run) !! l = heap w !! l) /\
  (heap (snd run) = heap w \/
   length (heap (snd run)) = (length (heap w) + 2)%nat) /\
  exists evs, trace (snd run) = trace w ++ evs.
Proof.
  intros w run.
  apply (@older_dictionaries_untouched example_warp (PyDataset example_base)
           (PyList [PyDataset example_small; PyDataset example_wide])
           nearest false w (fst run)).
  vm_compute. reflexivity.
Defined.

(** X4.  In a call that returns, the dictionary of every result carries the
    driver, element type, nodata value, band count and coordinate system of
    the base raster, in both modes: only the grid keys are ever assigned. *)
Theorem descriptors_keep_base_identity {W : Warp}
    base_raster raster_list resampling_method same_extent w results w' :
  unify_raster_grids base_raster raster_list resampling_method same_extent w
  = (inr results, w') ->
  exists base,
    base_raster = PyDataset base /\
    Forall (fun result =>
              exists d, snd result = Some d /\
                Meta.driver d = DatasetReader.driver base /\
                Meta.dtype d = DatasetReader.dtype base /\
                Meta.nodata d = DatasetReader.nodata base /\
                Meta.count d = DatasetReader.count base /\
                Meta.crs d = DatasetReader.crs base)
           (view w' results).
Proof.
  intros Hrun.
  apply unify_raster_grids_returns in Hrun.
  destruct Hrun as (base & others & -> & -> & Hne & Hrun).
  apply _unify_raster_grids_returns in Hrun.
  destruct Hrun as (steps & Hsteps & -> & Hheap & _).
  exists base. split; [reflexivity | ].
  rewrite view_results, Hheap, base_meta_kept, out_meta_final.
  constructor.
  - eexists. repeat split.
  - apply Forall_map. apply Forall_forall. intros s _. simpl.
    eexists. split; [reflexivity | ].
    destruct same_extent; [repeat split | ].
    destruct (last (map fst steps)) as [[[t wd] ht] | ]; repeat split.
Qed.

(** X4 on the running example, unclipped: the arrays after the first are
    float64 while their dictionary says int16. *)
Lemma descriptors_keep_base_identity_example :
  exists base,
    PyDataset example_base = PyDataset base /\
    Forall (fun result =>
              exists d, snd result = Some d /\
                Meta.driver d = DatasetReader.driver base /\
                Meta.dtype d = DatasetReader.dtype base /\
                Meta.nodata d = DatasetReader.nodata base /\
                Meta.count d = DatasetReader.count base /\
                Meta.crs d = DatasetReader.crs base)
           (view (example_world false) (example_results false)).
Proof.
  apply (@descriptors_keep_base_identity example_warp (PyDataset example_base)
           (PyList [PyDataset example_small; PyDataset example_wide])
           nearest false empty_world).
  vm_compute. reflexivity.
Defined.

(** ** Failures *)

Lemma for_each_app {A S} (body : S -> A -> M S) (l1 l2 : list A) : forall s w,
  for_each body (l1 ++ l2) s w
  = match for_each body l1 s w with
    | (inr s', w') => for_each body l2 s' w'
    | (inl ex, w') => (inl ex, w')
    end.
Proof.
  induction l1 as [ | x l1 IH]; intros s w; simpl; [reflexivity | ].
  unfold bind. destruct (body s x w) as [[ex | s'] w']; [reflexivity | ].
  apply IH.
Qed.

(** The loop keeps its invariant. *)
Lemma for_each_grid_kept {W : Warp} base resampling_method same_extent out_meta
    rasters : forall vars w vars' w',
  grid_kept base same_extent vars ->
  for_each (loop_body base resampling_method same_extent out_meta)
    rasters vars w = (inr vars', w') ->
  grid_kept base same_extent vars'.
Proof.
  induction rasters as [ | r rest IH]; intros vars w vars' w' Hinv Hrun.
  - simpl in Hrun. unfold ret in Hrun. injection Hrun as <- <-. exact Hinv.
  - simpl in Hrun. unfold bind in Hrun.
    rewrite (loop_body_run _ _ _ _ _ _ _ Hinv) in Hrun. simpl in Hrun.
    destruct (target_grid base same_extent r) as [ex | g] eqn:Hg;
      [discriminate | ].
    destruct (reproject (reproject_args base resampling_method r g))
      as [ex | img]; [discriminate | ].
    eapply IH; [ | exact Hrun].
    intros Hse. simpl. unfold target_grid in Hg. rewrite Hse in Hg.
    injection Hg as <-. reflexivity.
Qed.

(** X5.  When the passes for the rasters before [failing] complete and the
    pass for [failing] raises [ex], either in computing its grid or in
    [reproject], the call raises [ex]: no result is returned, and every
    external call made is a call for [failing] or for a raster before it, so
    none is made only for the rasters after it. *)
Theorem first_failure_aborts_the_call {W : Warp}
    base done failing rest resampling_method same_extent w steps ex :
  Forall2 (pass base resampling_method same_extent) done steps ->
  (target_grid base same_extent failing = inl ex \/
   exists g, target_grid base same_extent failing = inr g /\
     reproject (reproject_args base resampling_method failing g) = inl ex) ->
  exists w' evs,
    unify_raster_grids (PyDataset base)
      (PyList (map PyDataset (done ++ failing :: rest)))
      resampling_method same_extent w
    = (inl ex, w') /\
    trace w' = trace w ++ evs /\
    Forall (loop_event base resampling_method (done ++ [failing])) evs.
Proof.
  intros Hdone Hfail.
  rewrite unify_raster_grids_valid by (destruct done; discriminate).
  replace (done ++ failing :: rest) with ((done ++ [failing]) ++ rest)
    by (rewrite <- app_assoc; reflexivity).
  unfold _unify_raster_grids, bind, new_dict; simpl.
  rewrite for_each_app.
  set (w0 := {| heap := (heap w ++ [DatasetReader.meta base])
                        ++ [DatasetReader.meta base];
                trace := trace w |}).
  set (out_meta := length (heap w ++ [DatasetReader.meta base])).
  set (vars0 := Locals.Make _ _ _ _).
  assert (grid_kept base same_extent vars0) as Hinv0 by (intros _; reflexivity).
  destruct (for_each _ (done ++ [failing]) vars0 w0) as [outcome w1] eqn:Hrun.
  pose proof (for_each_trace _ _ _ _ _ _ _ _ _ Hinv0 Hrun) as (evs & Htrace & Hevs).
  rewrite for_each_app in Hrun.
  destruct (for_each_completes base resampling_method same_extent out_meta
              done steps vars0 w0 Hinv0 Hdone) as (vars1 & Hrun1 & _).
  pose proof (for_each_grid_kept _ _ _ _ _ _ _ _ _ Hinv0 Hrun1) as Hinv1.
  rewrite Hrun1 in Hrun. simpl in Hrun. unfold bind in Hrun.
  rewrite (loop_body_run _ _ _ _ _ _ _ Hinv1) in Hrun. simpl in Hrun.
  assert (exists w2, outcome = inl ex /\ w1 = w2) as (w2 & -> & _).
  { destruct Hfail as [Hg | (g & Hg & Himg)]; rewrite Hg in Hrun.
    - injection Hrun as <- <-. eauto.
    - rewrite Himg in Hrun. injection Hrun as <- <-. eauto. }
  exists w1, evs. repeat split; assumption.
Qed.

(** X5 with a [reproject] that fails on [example_wide]: the call on
    [example_small; example_wide; example_small] raises. *)
Lemma first_failure_aborts_the_call_example :
  exists w' evs,
    @unify_raster_grids example_failing_warp (PyDataset example_base)
      (PyList (map PyDataset ([example_small] ++ example_wide :: [example_small])))
      nearest true empty_world
    = (inl (WarpError "reprojection failed"), w') /\
    trace w' = trace empty_world ++ evs /\
    Forall (loop_event (W:=example_failing_warp) example_base nearest
              ([example_small] ++ [example_wide])) evs.
Proof.
  eapply (@first_failure_aborts_the_call example_failing_warp example_base
            [example_small] example_wide [example_small] nearest true
            empty_world).
  - constructor; [ | constructor].
    instantiate (1 := (base_grid example_base,
                       ndarray.Make (1, 3, 4)%nat float64
                         ([0; 21; 22; 23]
                          ++ replicate 8 (DatasetReader.nodata example_base)))).
    split; vm_compute; reflexivity.
  - right. exists (base_grid example_base). split; vm_compute; reflexivity.
Defined.

(** ** The sequence of external calls *)

(** In clipped mode the loop only ever calls [reproject]. *)
Lemma for_each_clipped_trace {W : Warp} base resampling_method out_meta
    rasters : forall vars w outcome w',
  grid_kept base true vars ->
  for_each (loop_body base resampling_method true out_meta)
    rasters vars w = (outcome, w') ->
  exists evs, trace w' = trace w ++ evs /\
    (length evs <= length rasters)%nat /\
    Forall (fun ev => exists args, ev = EvReproject args) evs.
Proof.
  induction rasters as [ | r rest IH]; intros vars w outcome w' Hinv Hrun.
  - simpl in Hrun. unfold ret in Hrun. injection Hrun as <- <-.
    exists []. rewrite app_nil_r. repeat split; [simpl; lia | constructor].
  - simpl in Hrun. unfold bind in Hrun.
    rewrite (loop_body_run _ _ _ _ _ _ _ Hinv) in Hrun. simpl in Hrun.
    unfold pass_events in Hrun. simpl in Hrun.
    destruct (reproject _) as [ex | img].
    { injection Hrun as <- <-. simpl. eexists. split; [reflexivity | ].
      split; [simpl; lia | ]. constructor; [eauto | constructor]. }
    apply IH in Hrun; [ | intros _; reflexivity].
    destruct Hrun as (evs & Htrace & Hlen & Hevs). simpl in Htrace.
    rewrite <- app_assoc in Htrace. eexists. split; [exact Htrace | ].
    split; [simpl; lia | ]. constructor; [eauto | exact Hevs].
Qed.

(** X6.  In clipped mode a call never calls [calculate_default_transform],
    whatever its arguments and its outcome: every external call it makes is
    a call of [reproject]. *)
Theorem clipped_mode_only_reprojects {W : Warp}
    base_raster raster_list resampling_method w outcome w' :
  unify_raster_grids base_raster raster_list resampling_method true w
  = (outcome, w') ->
  exists evs, trace w' = trace w ++ evs /\
    Forall (fun ev => exists args, ev = EvReproject args) evs.
Proof.
  intros Hrun.
  destruct (unify_raster_grids_cases base_raster raster_list resampling_method
              true w) as [Hbad | (base & others & _ & _ & _ & Hgood)].
  - rewrite Hbad in Hrun. injection Hrun as <- <-.
    exists []. rewrite app_nil_r. split; [reflexivity | constructor].
  - rewrite Hgood in Hrun. revert Hrun.
    unfold _unify_raster_grids, bind, new_dict; simpl.
    destruct (for_each _ others _ _) as [res w1] eqn:Hloop.
    apply for_each_clipped_trace in Hloop; [ | intros _; reflexivity].
    destruct Hloop as (evs & Htrace & _ & Hevs). simpl in Htrace.
    destruct res as [ex | vars]; unfold ret; intros [= <- <-]; eauto.
Qed.

(** X6 on the running example. *)
Lemma clipped_mode_only_reprojects_example :
  exists evs, trace (example_world true) = trace empty_world ++ evs /\
    Forall (fun ev => exists args, ev = EvReproject args) evs.
Proof.
  apply (@clipped_mode_only_reprojects example_warp (PyDataset example_base)
           (PyList [PyDataset example_small; PyDataset example_wide])
           nearest empty_world (inr (example_results true))).
  vm_compute. reflexivity.
Defined.

(** X7.  A call that returns has made its external calls raster by raster in
    the order of the list: for each raster one call of [reproject] on the
    raster's target grid, preceded in unclipped mode, and only then, by the
    call of [calculate_default_transform] for that raster. *)
Theorem external_calls_follow_the_list {W : Warp}
    base_raster raster_list resampling_method same_extent w results w' :
  unify_raster_grids base_raster raster_list resampling_method same_extent w
  = (inr results, w') ->
  exists base others grids,
    base_raster = PyDataset base /\
    raster_list = PyList (map PyDataset others) /\
    Forall2 (fun raster grid => target_grid base same_extent raster = inr grid)
            others grids /\
    trace w' = trace w ++
      concat (zip_with
                (fun raster grid =>
                   (if same_extent then []
                    else [EvCalculateDefaultTransform (cdt_args base raster)])
                   ++ [EvReproject
                         (reproject_args base resampling_method raster grid)])
                others grids).
Proof.
  intros Hrun.
  apply unify_raster_grids_returns in Hrun.
  destruct Hrun as (base & others & -> & -> & Hne & Hrun).
  apply _unify_raster_grids_returns in Hrun.
  destruct Hrun as (steps & Hsteps & _ & _ & Htrace).
  exists base, others, (map fst steps). repeat split.
  - apply Forall2_map_right.
    eapply Forall2_impl; [exact Hsteps | ]. intros r s [Hg _]. exact Hg.
  - rewrite Htrace. f_equal. f_equal.
    clear Htrace Hne. induction Hsteps as [ | r s rs ss _ _ IH]; simpl;
      [reflexivity | ].
    rewrite IH. reflexivity.
Qed.

(** X7 on the running example, unclipped. *)
Lemma external_calls_follow_the_list_example :
  exists base others grids,
    PyDataset example_base = PyDataset base /\
    PyList [PyDataset example_small; PyDataset example_wide]
    = PyList (map PyDataset others) /\
    Forall2 (fun raster grid =>
               target_grid (W:=example_warp) base false raster = inr grid)
            others grids /\
    trace (example_world false) = trace empty_world ++
      concat (zip_with
                (fun raster grid =>
                   (if false then []
                    else [EvCalculateDefaultTransform (cdt_args base raster)])
                   ++ [EvReproject
                         (reproject_args (W:=example_warp) base nearest
                            raster grid)])
                others grids).
Proof.
  apply (@external_calls_follow_the_list example_warp (PyDataset example_base)
           (PyList [PyDataset example_small; PyDataset example_wide])
           nearest false empty_world (example_results false)).
  vm_compute. reflexivity.
Defined.

(** ** A base raster without resolution *)

Lemma py_mod_zero (x y : Q) : y == 0 -> py_mod x y = inl ZeroDivisionError.
Proof.
  intros Hy. unfold py_mod.
  replace (Qeq_bool y 0) with true; [reflexivity | ].
  symmetry. apply Qeq_bool_iff. exact Hy.
Qed.

(** X8.  In unclipped mode, when the transform of the base raster has a = 0
    or e = 0 and [calculate_default_transform] returns for the first raster,
    the call raises [ZeroDivisionError] in the snapping step: after that one
    external call, before any dictionary is assigned to and before any call
    of [reproject]. *)
Theorem zero_resolution_raises {W : Warp}
    base first rest resampling_method w raw :
  Affine.a (DatasetReader.transform base) == 0 \/
  Affine.e (DatasetReader.transform base) == 0 ->
  calculate_default_transform (cdt_args base first) = inr raw ->
  unify_raster_grids (PyDataset base) (PyList (map PyDataset (first :: rest)))
    resampling_method false w
  = (inl ZeroDivisionError,
     {| heap := heap w ++ [DatasetReader.meta base; DatasetReader.meta base];
        trace := trace w ++ [EvCalculateDefaultTransform (cdt_args base first)] |}).
Proof.
  intros Hzero Hraw.
  rewrite unify_raster_grids_valid by discriminate.
  unfold _unify_raster_grids, bind, new_dict; simpl. unfold bind.
  rewrite loop_body_run by (intros [=]). simpl.
  assert (own_grid base first = inl ZeroDivisionError) as Hgrid.
  { unfold own_grid, snap_transform. rewrite Hraw.
    destruct raw as [[t wd] ht]. unfold dst_resolution; simpl.
    destruct (py_mod (Affine.c t) _) as [ex | x] eqn:Hx.
    - destruct Hzero as [Ha | He].
      + rewrite (py_mod_zero _ _ Ha) in Hx. congruence.
      + unfold py_mod in Hx. destruct (Qeq_bool _ 0); congruence.
    - destruct Hzero as [Ha | He].
      + rewrite (py_mod_zero _ _ Ha) in Hx. discriminate.
      + rewrite py_mod_zero; [reflexivity | ]. rewrite He. reflexivity. }
  unfold target_grid. rewrite Hgrid. rewrite <- app_assoc. reflexivity.
Qed.

(** X8 on the rotated base raster (a = e = 0). *)
Lemma zero_resolution_raises_example :
  @unify_raster_grids example_warp (PyDataset example_rotated)
    (PyList (map PyDataset (example_small :: [example_wide]))) nearest false
    empty_world
  = (inl ZeroDivisionError,
     {| heap := heap empty_world
                ++ [DatasetReader.meta example_rotated;
                    DatasetReader.meta example_rotated];
        trace := trace empty_world
                 ++ [EvCalculateDefaultTransform
                       (cdt_args example_rotated example_small)] |}).
Proof.
  eapply (@zero_resolution_raises example_warp example_rotated example_small
            [example_wide] nearest empty_world).
  - left. reflexivity.
  - vm_compute. reflexivity.
Defined.

(** ** Snapping, for a base raster of positive resolution *)



(** A coordinate that is a multiple of the resolution has remainder zero and
    stays where it is. *)
Lemma snap_of_multiple (coord resolution : Q) (n : Z) :
  0 < resolution ->
  coord == inject_Z n * resolution ->
  exists remainder,
    py_mod coord resolution = inr remainder /\
    snap coord remainder resolution == coord.
Proof.
  intros Hpos Hmult. unfold py_mod.
  destruct (Qeq_bool resolution 0) eqn:Hzero.
  { apply Qeq_bool_iff in Hzero. lra. }
  eexists. split; [reflexivity | ].
  assert (Qfloor (coord / resolution) = n) as ->.
  { rewrite <- (Qfloor_Z n). apply Qfloor_comp.
    rewrite Hmult. apply Qdiv_mult_l. lra. }
  assert (coord - resolution * inject_Z n == 0) as Hrem
    by (rewrite Hmult; ring).
  assert (resolution / 2 == resolution * (1 # 2)) as Hhalf by field.
  unfold snap, Qgtb.
  replace (Qle_bool (coord - resolution * inject_Z n) (resolution / 2))
    with true.
  - cbn [negb]. lra.
  - symmetry. apply Qle_bool_iff. lra.
Qed.

(** X10.  For a base raster of positive resolution, when the origin that
    [calculate_default_transform] returns already lies on whole multiples of
    the resolution, the snapping step returns a grid and leaves the origin
    where it is: all six coefficients, the width and the height are kept. *)
Theorem aligned_origin_is_not_moved {W : Warp}
    base raster out_meta w raw raw_width raw_height (n k : Z) :
  0 < fst (dst_resolution base) ->
  0 < snd (dst_resolution base) ->
  calculate_default_transform (cdt_args base raster)
  = inr (raw, raw_width, raw_height) ->
  Affine.c raw == inject_Z n * fst (dst_resolution base) ->
  Affine.f raw == inject_Z k * snd (dst_resolution base) ->
  exists snapped w',
    snapped_grid base raster out_meta w
    = (inr (snapped, raw_width, raw_height), w') /\
    Affine.a snapped = Affine.a raw /\ Affine.b snapped = Affine.b raw /\
    Affine.d snapped = Affine.d raw /\ Affine.e snapped = Affine.e raw /\
    Affine.c snapped == Affine.c raw /\ Affine.f snapped == Affine.f raw.
Proof.
  intros Hx Hy Hraw Hc Hf.
  destruct (snap_of_multiple _ _ _ Hx Hc) as (rx & Hrx & Hsx).
  destruct (snap_of_multiple _ _ _ Hy Hf) as (ry & Hry & Hsy).
  rewrite snapped_grid_run. unfold own_grid, snap_transform.
  rewrite Hraw, Hrx, Hry. cbv zeta.
  eexists. eexists. split; [reflexivity | ].
  simpl. repeat split; assumption.
Qed.

(** X10 on a raster whose bounds start at (2, 9): the base raster has
    resolution 1. *)
Lemma aligned_origin_is_not_moved_example :
  exists snapped w',
    @snapped_grid example_warp example_base
      (DatasetReader.Make "GTiff"%string uint8 0 2 2 1 "EPSG:3067"%string
         (Affine.Make 1 0 2 0 (-1) 9) (2, 7, 4, 9) [1; 2; 3; 4])
      1%nat empty_world
    = (inr (snapped, 2%nat, 2%nat), w') /\
    Affine.a snapped = Affine.a (Affine.Make 1 0 2 0 (-(1)) 9) /\
    Affine.b snapped = Affine.b (Affine.Make 1 0 2 0 (-(1)) 9) /\
    Affine.d snapped = Affine.d (Affine.Make 1 0 2 0 (-(1)) 9) /\
    Affine.e snapped = Affine.e (Affine.Make 1 0 2 0 (-(1)) 9) /\
    Affine.c snapped == Affine.c (Affine.Make 1 0 2 0 (-(1)) 9) /\
    Affine.f snapped == Affine.f (Affine.Make 1 0 2 0 (-(1)) 9).
Proof.
  eapply (@aligned_origin_is_not_moved example_warp example_base _ 1%nat
            empty_world _ 2%nat 2%nat 2 9).
  - reflexivity.
  - reflexivity.
  - vm_compute. reflexivity.
  - reflexivity.
  - reflexivity.
Defined.

(** ** Lists of rasters *)

(** X11.  The arrays do not depend on the other rasters of the list: when the
    call on one list returns and the call on another list returns, the call
    on the two lists joined returns, and its arrays are the arrays of the
    first call followed by the arrays of the second call without its base
    array. *)
Theorem arrays_of_joined_lists {W : Warp}
    base_raster items1 items2 resampling_method same_extent
    w1 results1 w1' w2 results2 w2' w :
  unify_raster_grids base_raster (PyList items1) resampling_method same_extent w1
  = (inr results1, w1') ->
  unify_raster_grids base_raster (PyList items2) resampling_method same_extent w2
  = (inr results2, w2') ->
  exists results w',
    unify_raster_grids base_raster (PyList (items1 ++ items2))
      resampling_method same_extent w
    = (inr results, w') /\
    map fst results = map fst results1 ++ tail (map fst results2).
Proof.
  intros Hrun1 Hrun2.
  apply unify_raster_grids_returns in Hrun1, Hrun2.
  destruct Hrun1 as (base & others1 & -> & [= ->] & Hne1 & Hrun1).
  destruct Hrun2 as (base' & others2 & [= <-] & [= ->] & _ & Hrun2).
  apply _unify_raster_grids_returns in Hrun1, Hrun2.
  destruct Hrun1 as (steps1 & Hsteps1 & -> & _ & _).
  destruct Hrun2 as (steps2 & Hsteps2 & -> & _ & _).
  rewrite <- map_app.
  rewrite unify_raster_grids_valid by (destruct others1; [congruence | discriminate]).
  rewrite (_unify_raster_grids_result base resampling_method same_extent
             (others1 ++ others2) (steps1 ++ steps2))
    by (apply Forall2_app; assumption).
  eexists. eexists. split; [reflexivity | ].
  simpl. rewrite !map_map, map_app. simpl. reflexivity.
Qed.

(** X11 on the running example: the list of the two rasters followed by the
    same list again. *)
Lemma arrays_of_joined_lists_example :
  exists results w',
    @unify_raster_grids example_warp (PyDataset example_base)
      (PyList ([PyDataset example_small; PyDataset example_wide]
               ++ [PyDataset example_small; PyDataset example_wide]))
      nearest false empty_world
    = (inr results, w') /\
    map fst results
    = map fst (example_results false) ++ tail (map fst (example_results false)).
Proof.
  eapply (@arrays_of_joined_lists example_warp (PyDataset example_base)
            [PyDataset example_small; PyDataset example_wide]
            [PyDataset example_small; PyDataset example_wide]
            nearest false empty_world (example_results false) _
            empty_world (example_results false) _ empty_world).
  - vm_compute. reflexivity.
  - vm_compute. reflexivity.
Defined.

(** ** The arguments of [reproject] *)

(** X12.  Whatever the outcome of a call, every call of [reproject] it makes
    passes the array read from a raster of the list with that raster's
    coordinate system and transform, the coordinate system of the base raster
    as destination, the resampling method of the call, a float64 destination
    array holding the nodata value of the base raster in every cell, and that
    nodata value both as destination nodata and as source nodata. *)
Theorem reproject_arguments {W : Warp}
    base raster_list resampling_method same_extent w outcome w' :
  unify_raster_grids (PyDataset base) raster_list resampling_method same_extent w
  = (outcome, w') ->
  exists evs, trace w' = trace w ++ evs /\
    Forall (fun ev =>
              match ev with
              | EvReproject args =>
                  exists items raster,
                    raster_list = PyList items /\
                    In (PyDataset raster) items /\
                    source args = DatasetReader.read raster /\
                    src_crs args = DatasetReader.crs raster /\
                    src_transform args = DatasetReader.transform raster /\
                    src_nodata args = DatasetReader.nodata base /\
                    ndarray.dtype (destination args) = float64 /\
                    ndarray.data (destination args)
                    = replicate (size (ndarray.shape (destination args)))
                                (DatasetReader.nodata base) /\
                    dst_crs args = DatasetReader.crs base /\
                    dst_nodata args = DatasetReader.nodata base /\
                    resampling args = resampling_method
              | EvCalculateDefaultTransform _ => True
              end) evs.
Proof.
  intros Hrun.
  destruct (unify_raster_grids_cases (PyDataset base) raster_list
              resampling_method same_extent w)
    as [Hbad | (base' & others & [= <-] & -> & _ & Hgood)].
  - rewrite Hbad in Hrun. injection Hrun as <- <-.
    exists []. rewrite app_nil_r. split; [reflexivity | constructor].
  - rewrite Hgood in Hrun. apply reproject_calls in Hrun.
    destruct Hrun as (evs & Htrace & Hevs). exists evs. split; [exact Htrace | ].
    eapply Forall_impl; [exact Hevs | ].
    intros [cdt | args]; [trivial | ].
    intros (r & Hin & Hargs). exists (map PyDataset others), r.
    split; [reflexivity | ]. split; [ | exact Hargs].
    apply in_map. exact Hin.
Qed.

(** X12 on the running example, clipped. *)
Lemma reproject_arguments_example :
  exists evs, trace (example_world true) = trace empty_world ++ evs /\
    Forall (fun ev =>
              match ev with
              | EvReproject args =>
                  exists items raster,
                    PyList [PyDataset example_small; PyDataset example_wide]
                    = PyList items /\
                    In (PyDataset raster) items /\
                    source args = DatasetReader.read raster /\
                    src_crs args = DatasetReader.crs raster /\
                    src_transform args = DatasetReader.transform raster /\
                    src_nodata args = DatasetReader.nodata example_base /\
                    ndarray.dtype (destination args) = float64 /\
                    ndarray.data (destination args)
                    = replicate (size (ndarray.shape (destination args)))
                                (DatasetReader.nodata example_base) /\
                    dst_crs args = DatasetReader.crs example_base /\
                    dst_nodata args = DatasetReader.nodata example_base /\
                    resampling args = nearest
              | EvCalculateDefaultTransform _ => True
              end) evs.
Proof.
  apply (@reproject_arguments example_warp example_base
           (PyList [PyDataset example_small; PyDataset example_wide])
           nearest true empty_world (inr (example_results true))).
  vm_compute. reflexivity.
Defined.

(** ** Calls that return *)

Lemma py_mod_nonzero (x y : Q) : ~ y == 0 -> exists r, py_mod x y = inr r.
Proof.
  intros Hy. unfold py_mod. destruct (Qeq_bool y 0) eqn:Hzero.
  - apply Qeq_bool_iff in Hzero. contradiction.
  - eauto.
Qed.

(** X13.  A call on a base raster and a non-empty list of rasters returns
    whenever [reproject] returns for the rasters of the list and, in
    unclipped mode, the transform of the base raster has a <> 0 and e <> 0 and
    [calculate_default_transform] returns for the rasters of the list; the
    result then has one element more than the list. *)
Theorem call_returns_when_capabilities_return {W : Warp}
    base others resampling_method same_extent w :
  others <> [] ->
  (forall raster grid, In raster others ->
     exists out,
       reproject (reproject_args base resampling_method raster grid) = inr out) ->
  (same_extent = false ->
     ~ Affine.a (DatasetReader.transform base) == 0 /\
     ~ Affine.e (DatasetReader.transform base) == 0 /\
     forall raster, In raster others ->
       exists raw, calculate_default_transform (cdt_args base raster) = inr raw) ->
  exists results w',
    unify_raster_grids (PyDataset base) (PyList (map PyDataset others))
      resampling_method same_extent w
    = (inr results, w') /\
    length results = S (length others).
Proof.
  intros Hne Hreproject Hgrid.
  assert (exists steps,
             Forall2 (pass base resampling_method same_extent) others steps)
    as (steps & Hsteps).
  { clear Hne. induction others as [ | r rest IH].
    - exists []. constructor.
    - destruct IH as (steps & Hsteps).
      { intros raster g Hin. apply Hreproject. right. exact Hin. }
      { intros Hse. destruct (Hgrid Hse) as (Ha & He & Hcdt).
        repeat split; try assumption.
        intros raster Hin. apply Hcdt. right. exact Hin. }
      assert (exists g, target_grid base same_extent r = inr g) as (g & Hg).
      { unfold target_grid. destruct same_extent; [eauto | ].
        destruct (Hgrid eq_refl) as (Ha & He & Hcdt).
        destruct (Hcdt r (or_introl eq_refl)) as ([[raw wd] ht] & Hraw).
        unfold own_grid, snap_transform. rewrite Hraw.
        destruct (py_mod_nonzero (Affine.c raw) (fst (dst_resolution base)))
          as (x & ->); [exact Ha | ].
        destruct (py_mod_nonzero (Affine.f raw) (snd (dst_resolution base)))
          as (y & ->).
        { pose proof (Qabs_positive _ He) as Hpos. simpl. lra. }
        eauto. }
      destruct (Hreproject r g (or_introl eq_refl)) as (img & Himg).
      exists ((g, img) :: steps). constructor; [split; assumption | exact Hsteps]. }
  rewrite unify_raster_grids_valid by exact Hne.
  rewrite (_unify_raster_grids_result _ _ _ _ _ _ Hsteps).
  eexists. eexists. split; [reflexivity | ].
  simpl. rewrite length_map. f_equal. symmetry.
  eapply Forall2_length. exact Hsteps.
Qed.

(** X13 on the running example, unclipped. *)
Lemma call_returns_when_capabilities_return_example :
  exists results w',
    @unify_raster_grids example_warp (PyDataset example_base)
      (PyList (map PyDataset [example_small; example_wide])) nearest false
      empty_world
    = (inr results, w') /\
    length results = S (length [example_small; example_wide]).
Proof.
  apply (@call_returns_when_capabilities_return example_warp example_base
           [example_small; example_wide] nearest false empty_world).
  - discriminate.
  - intros raster grid _. eexists. reflexivity.
  - intros _. split; [vm_compute; discriminate | ].
    split; [vm_compute; discriminate | ].
    intros raster [<- | [<- | []]]; eexists; vm_compute; reflexivity.
Defined.
